(** * Local Moran's I (LISA) classification: a model of [calc_local_morans.py]

    The program reads a polygon layer, builds Queen or Rook contiguity
    weights, mean-fills the requested attribute, calls [esda]'s
    [Moran_Local] and labels every unit with a cluster category.

    Conventions of the embedding:
    - a Python float is a rational or NaN: [float := option Q], [None] is NaN;
    - a pandas column is a list, a data frame is a finite map from column
      names to columns together with the length of its index;
    - library calls that the script does not define ([gpd.read_file],
      [Queen.from_dataframe], [Rook.from_dataframe], [Moran_Local],
      [str.lower]) are the fields of a record [Library]; the program is
      parametric in it;
    - printing, writing files, plotting and the state of NumPy's random
      generator are threaded through an explicit [World]. *)

From Stdlib Require Import QArith Ascii String.
From stdpp Require Import base strings list gmap.

Local Open Scope Q_scope.
Local Open Scope string_scope.
Local Open Scope list_scope.

(** ** Floats *)

(** [None] stands for NaN. *)
Abbreviation float := (option Q).

Definition Qlt_bool (x y : Q) : bool := negb (Qle_bool y x).

(** Sums are kept in lowest terms. *)
Definition Qsum (xs : list Q) : Q := foldr (fun x acc => Qred (x + acc)) 0 xs.

(** A comparison with NaN is false, as in NumPy. *)
Definition float_lt (x : float) (y : Q) : bool :=
  match x with
  | Some v => Qlt_bool v y
  | None => false
  end.

(** ** pandas: [Series.mean] and [Series.fillna] *)

(** The entries of a column that are not NaN, in order. *)
Definition present (xs : list float) : list Q := omap id xs.

(** [Series.mean()] skips NaN; over no value at all it is NaN. *)
Definition mean (xs : list float) : float :=
  match present xs with
  | [] => None
  | v :: vs => Some (Qsum (v :: vs) / inject_Z (Z.of_nat (length (v :: vs))))
  end.

(** [Series.fillna(value)]: NaN entries become [value]; filling with NaN
    changes nothing. *)
Definition fillna (xs : list float) (value : float) : list float :=
  match value with
  | None => xs
  | Some m => map (fun x => match x with None => Some m | Some _ => x end) xs
  end.

(** Line 43: [col.fillna(col.mean())]. *)
Definition handle_missing (xs : list float) : list float :=
  fillna xs (mean xs).

(** ** NumPy: element-wise arithmetic on arrays of one length *)

Definition b2z (b : bool) : Z := if b then 1%Z else 0%Z.

Definition scalar_mul (k : Z) (xs : list Z) : list Z := map (Z.mul k) xs.
Definition array_mul (xs ys : list Z) : list Z := zip_with Z.mul xs ys.
Definition array_add (xs ys : list Z) : list Z := zip_with Z.add xs ys.
Definition array_eq_scalar (xs : list Z) (k : Z) : list Z :=
  map (fun x => b2z (x =? k)%Z) xs.
Definition array_lt_scalar (xs : list float) (k : Q) : list Z :=
  map (fun x => b2z (float_lt x k)) xs.

(** ** The classifier, lines 57-70 *)

Definition alpha : Q := 5 # 100.

Definition sig (p_sim : list float) : list Z :=
  scalar_mul 1 (array_lt_scalar p_sim alpha).
Definition hotspot (q : list Z) (p_sim : list float) : list Z :=
  array_mul (scalar_mul 1 (array_eq_scalar q 1)) (sig p_sim).
Definition coldspot (q : list Z) (p_sim : list float) : list Z :=
  array_mul (scalar_mul 2 (array_eq_scalar q 3)) (sig p_sim).
Definition outlier1 (q : list Z) (p_sim : list float) : list Z :=
  array_mul (scalar_mul 3 (array_eq_scalar q 2)) (sig p_sim).
Definition outlier2 (q : list Z) (p_sim : list float) : list Z :=
  array_mul (scalar_mul 4 (array_eq_scalar q 4)) (sig p_sim).

Definition categories (q : list Z) (p_sim : list float) : list Z :=
  array_add (array_add (array_add (hotspot q p_sim) (coldspot q p_sim))
                       (outlier1 q p_sim)) (outlier2 q p_sim).

Definition labels : list string :=
  ["Non-sig"; "Hotspot (High-High)"; "Coldspot(Low-Low)";
   "outlier(Low-High)"; "outlier(High-Low)"].

(** ** Exceptions and outcomes *)

Record exn : Type := Exn { exn_name : string; exn_msg : string }.

Inductive outcome (A : Type) : Type :=
| Returned (a : A)
| Raised (e : exn).
Arguments Returned {A} a.
Arguments Raised {A} e.

(** ** pandas: [Categorical.from_codes] and [astype(str)] *)

(** A categorical array: integer codes into a list of category names;
    code [-1] is the missing value. *)
Record Categorical : Type :=
  { codes : list Z; cat_names : list string }.

Definition valid_code (n : nat) (c : Z) : bool :=
  ((-1 <=? c) && (c <? Z.of_nat n))%Z.

Definition from_codes (cs : list Z) (names : list string) : outcome Categorical :=
  if forallb (valid_code (length names)) cs
  then Returned {| codes := cs; cat_names := names |}
  else Raised (Exn "ValueError" "codes need to be between -1 and len(categories)-1").

(** [astype(str)]: a code becomes its category name, the missing value
    becomes the text [nan]. *)
Definition code_to_str (names : list string) (c : Z) : string :=
  if (c <? 0)%Z then "nan" else default "nan" (names !! Z.to_nat c).

Definition astype_str (c : Categorical) : list string :=
  map (code_to_str (cat_names c)) (codes c).

(** ** Lower case on ASCII text

    Python's [str.lower] is defined on all of Unicode and is one of the
    library functions the program is parametric in (the field [str_lower]
    of [Library] below).  On text made of ASCII characters only it is the
    function [ascii_lower]: the letters A-Z go to a-z, nothing else moves. *)

Definition lower_ascii (c : ascii) : ascii :=
  let n := nat_of_ascii c in
  if (Nat.leb 65 n && Nat.leb n 90)%bool then ascii_of_nat (n + 32) else c.

Fixpoint ascii_lower (s : string) : string :=
  match s with
  | EmptyString => EmptyString
  | String c s' => String (lower_ascii c) (ascii_lower s')
  end.

(** Text whose characters are all below 128. *)
Fixpoint is_ascii (s : string) : bool :=
  match s with
  | EmptyString => true
  | String c s' => (Nat.ltb (nat_of_ascii c) 128 && is_ascii s')%bool
  end.

(** ** Data frames *)

(** A polygon geometry: the vertex rings of its parts.  The program never
    looks inside one. *)
Definition Geometry : Type := list (list (Q * Q)).

Inductive column : Type :=
| FloatCol (xs : list float)
| StrCol (xs : list string)
| GeomCol (xs : list Geometry).

Definition column_length (c : column) : nat :=
  match c with
  | FloatCol xs => length xs
  | StrCol xs => length xs
  | GeomCol xs => length xs
  end.

Record DataFrame : Type :=
  { index_len : nat; data : gmap string column }.

(** Every column has one entry per row of the index. *)
Definition wf_frame (df : DataFrame) : Prop :=
  ∀ name c, data df !! name = Some c → column_length c = index_len df.

Definition has_column (name : string) (df : DataFrame) : bool :=
  bool_decide (is_Some (data df !! name)).

(** [df[name] = series], the series carrying the frame's own index. *)
Definition set_series (name : string) (c : column) (df : DataFrame) : DataFrame :=
  {| index_len := index_len df; data := <[name := c]> (data df) |}.

(** [df[name] = array]: pandas refuses an array of another length. *)
Definition set_column (name : string) (c : column) (df : DataFrame)
  : outcome DataFrame :=
  if Nat.eqb (column_length c) (index_len df)
  then Returned (set_series name c df)
  else Raised (Exn "ValueError" "Length of values does not match length of index").

(** [df[name]] as a numeric series; [mean] of a column that is not numeric
    raises. *)
Definition numeric_column (name : string) (df : DataFrame) : outcome (list float) :=
  match data df !! name with
  | Some (FloatCol xs) => Returned xs
  | Some _ => Raised (Exn "TypeError" "column is not numeric")
  | None => Raised (Exn "KeyError" name)
  end.

(** [df[[n1, ..., nk]]]: the named columns in the order asked for; a name
    listed twice is selected twice. *)
Record Selection : Type :=
  { sel_len : nat; sel_columns : list (string * column) }.

Fixpoint select_columns (names : list string) (df : DataFrame)
  : outcome (list (string * column)) :=
  match names with
  | [] => Returned []
  | n :: ns =>
      match data df !! n with
      | None => Raised (Exn "KeyError" n)
      | Some c =>
          match select_columns ns df with
          | Returned cs => Returned ((n, c) :: cs)
          | Raised e => Raised e
          end
      end
  end.

Definition select (names : list string) (df : DataFrame) : outcome Selection :=
  match select_columns names df with
  | Returned cs => Returned {| sel_len := index_len df; sel_columns := cs |}
  | Raised e => Raised e
  end.

(** [results.drop(columns='geometry')] *)
Definition drop_column (name : string) (r : Selection) : Selection :=
  {| sel_len := sel_len r;
     sel_columns := filter (fun nc => nc.1 ≠ name) (sel_columns r) |}.

(** The first column of a selection that carries a given name. *)
Fixpoint sel_lookup (name : string) (cs : list (string * column)) : option column :=
  match cs with
  | [] => None
  | (n, c) :: cs' => if String.eqb n name then Some c else sel_lookup name cs'
  end.

(** ** The result of [Moran_Local] *)

(** One entry per observation of the attributes [Is], [p_sim], [z_sim]
    and [q] of the object [esda] returns. *)
Record LocalStat : Type :=
  { Is_i : float; p_sim_i : float; z_sim_i : float; q_i : Z }.

Abbreviation MoranLocal := (list LocalStat).

Definition Is (m : MoranLocal) : list float := map Is_i m.
Definition p_sim (m : MoranLocal) : list float := map p_sim_i m.
Definition z_sim (m : MoranLocal) : list float := map z_sim_i m.
Definition q (m : MoranLocal) : list Z := map q_i m.

(** The category code of one unit, written out: what lines 57-63 compute
    at each position. *)
Definition code_of (s : LocalStat) : Z :=
  (1 * b2z (q_i s =? 1) * (1 * b2z (float_lt (p_sim_i s) alpha))
   + 2 * b2z (q_i s =? 3) * (1 * b2z (float_lt (p_sim_i s) alpha))
   + 3 * b2z (q_i s =? 2) * (1 * b2z (float_lt (p_sim_i s) alpha))
   + 4 * b2z (q_i s =? 4) * (1 * b2z (float_lt (p_sim_i s) alpha)))%Z.

(** ** The steps of [calc_local_morans] that call no library *)

Definition obind {A B : Type} (o : outcome A) (k : A → outcome B) : outcome B :=
  match o with
  | Returned a => k a
  | Raised e => Raised e
  end.

Notation "x <~ o ;; k" := (obind o (fun x => k))
  (at level 200, o at level 99, k at level 200, only parsing).

(** Line 43. *)
Definition fill_field (field_name : string) (shapefile_data : DataFrame)
  : outcome DataFrame :=
  xs <~ numeric_column field_name shapefile_data ;;
  Returned (set_series field_name (FloatCol (handle_missing xs)) shapefile_data).

Definition result_names (field_name : string) : list string :=
  [field_name; "LocMoranI"; "p_value"; "Z_score"; "LISA_Clust"; "geometry"].

(** The names lines 49-70 give to the columns they add. *)
Definition reserved_names : list string :=
  ["LocMoranI"; "p_value"; "Z_score"; "LISA_Clust"].

(** Lines 57-70: the categorical built from the codes, read back as text. *)
Definition LISA_Clust (moran_loc : MoranLocal) : outcome (list string) :=
  clust <~ from_codes (categories (q moran_loc) (p_sim moran_loc)) labels ;;
  Returned (astype_str clust).

(** Lines 49-73: the new columns, the labels and the final selection. *)
Definition assemble (field_name : string) (shapefile_data : DataFrame)
    (moran_loc : MoranLocal) : outcome Selection :=
  shapefile_data <~ set_column "LocMoranI" (FloatCol (Is moran_loc)) shapefile_data ;;
  shapefile_data <~ set_column "p_value" (FloatCol (p_sim moran_loc)) shapefile_data ;;
  shapefile_data <~ set_column "Z_score" (FloatCol (z_sim moran_loc)) shapefile_data ;;
  clust <~ LISA_Clust moran_loc ;;
  shapefile_data <~ set_column "LISA_Clust" (StrCol clust) shapefile_data ;;
  select (result_names field_name) shapefile_data.

(** ** The libraries the script calls *)

(** [W] is libpysal's weights object and [RandomState] the state of the
    random generator [Moran_Local] draws its permutations from.  The script
    passes no seed (line 46), so [Moran_Local] starts from whatever state the
    generator is in and leaves it advanced.  [str_lower] is Python's
    [str.lower], on text in any encoding that keeps ASCII as it is. *)
Record Library : Type :=
  { W : Type;
    RandomState : Type;
    read_file : string → outcome DataFrame;
    Queen_from_dataframe : DataFrame → outcome W;
    Rook_from_dataframe : DataFrame → outcome W;
    Moran_Local : list float → W → RandomState → outcome MoranLocal * RandomState;
    str_lower : string → string }.

(** What is known of [str.lower] without its Unicode tables: on ASCII text
    it is [ascii_lower]. *)
Definition lower_on_ascii (L : Library) : Prop :=
  ∀ s, is_ascii s = true → str_lower L s = ascii_lower s.

(** ** The world: what a run prints, writes and draws

    The trace holds what the script itself does, in order; what a library
    may print on its own account (a warning, say) is not part of it. *)

Inductive event : Type :=
| Print (line : string)
| ToFile (path driver : string) (r : Selection)
| ToCsv (path : string) (r : Selection)
| PlotLisa (r : Selection) (field_name : string)
| Traceback (e : exn).

Record World (R : Type) : Type := MkWorld { rng : R; trace : list event }.
Arguments MkWorld {R} rng trace.
Arguments rng {R} w.
Arguments trace {R} w.

Definition emit {R : Type} (ev : event) (w : World R) : World R :=
  MkWorld (rng w) (trace w ++ [ev]).

(** Computations that may raise and that change the world. *)
Definition M (R A : Type) : Type := World R → outcome A * World R.

Definition ret {R A : Type} (a : A) : M R A := fun w => (Returned a, w).

Definition bind {R A B : Type} (m : M R A) (k : A → M R B) : M R B :=
  fun w =>
    match m w with
    | (Returned a, w') => k a w'
    | (Raised e, w') => (Raised e, w')
    end.

Notation "x <- m ;; k" := (bind m (fun x => k))
  (at level 200, m at level 99, k at level 200, only parsing).
Notation "m ;;; k" := (bind m (fun _ => k))
  (at level 200, k at level 200, only parsing).

Definition lift {R A : Type} (o : outcome A) : M R A := fun w => (o, w).

Definition print {R : Type} (line : string) : M R unit :=
  fun w => (Returned tt, emit (Print line) w).

Definition dq : string := String (ascii_of_nat 34) EmptyString.

(** [json.dumps({"error": msg})] *)
Definition json_error (msg : string) : string :=
  "{" ++ dq ++ "error" ++ dq ++ ": " ++ dq ++ msg ++ dq ++ "}".

Definition invalid_weight_message : string :=
  "Invalid weight type specified. Use 'queen' or 'rook'.".

Section Program.
Context (L : Library).

Local Abbreviation Run := (M (RandomState L)).

(** Lines 34-40: the weights constructor the selector names, if any. *)
Definition select_weights (weight_type : string) (shapefile_data : DataFrame)
  : option (outcome (W L)) :=
  if String.eqb (str_lower L weight_type) "queen"
  then Some (Queen_from_dataframe L shapefile_data)
  else if String.eqb (str_lower L weight_type) "rook"
  then Some (Rook_from_dataframe L shapefile_data)
  else None.

(** Line 46: the call draws from the generator of the world. *)
Definition call_Moran_Local (y : list float) (weights : W L) : Run MoranLocal :=
  fun w =>
    let '(r, g) := Moran_Local L y weights (rng w) in
    (r, MkWorld g (trace w)).

(** Lines 42-76, once the frame is loaded and the weights are built. *)
Definition lisa (field_name : string) (shapefile_data : DataFrame) (weights : W L)
  : Run Selection :=
  shapefile_data <- lift (fill_field field_name shapefile_data) ;;
  y <- lift (numeric_column field_name shapefile_data) ;;
  moran_loc <- call_Moran_Local y weights ;;
  lift (assemble field_name shapefile_data moran_loc).

(** The function returns [None] after printing a message, or the result. *)
Definition calc_local_morans (input_shapefile field_name weight_type : string)
  : Run (option Selection) :=
  match read_file L input_shapefile with
  | Raised e =>
      print ("Failed to read shapefile: " ++ exn_msg e) ;;; ret None
  | Returned shapefile_data =>
      if negb (has_column field_name shapefile_data)
      then print ("Field '" ++ field_name ++ "' not found in the shapefile attributes.") ;;;
           ret None
      else
        match select_weights weight_type shapefile_data with
        | None =>
            print invalid_weight_message ;;; ret None
        | Some build =>
            weights <- lift build ;;
            result_data <- lisa field_name shapefile_data weights ;;
            ret (Some result_data)
        end
  end.

Definition geojson_output : string := "local_morans_results.geojson".
Definition csv_output : string := "local_morans_results.csv".

(** Lines 136-147.  The two writers and the renderer are taken to succeed;
    what they were given is recorded in the trace. *)
Definition save_and_plot (results : Selection) (field_name : string) : Run unit :=
  (fun w => (Returned tt, emit (ToFile geojson_output "GeoJSON" results) w)) ;;;
  print ("Results saved as GeoJSON to " ++ geojson_output) ;;;
  (fun w => (Returned tt, emit (ToCsv csv_output (drop_column "geometry" results)) w)) ;;;
  print ("Results saved as CSV to " ++ csv_output) ;;;
  (fun w => (Returned tt, emit (PlotLisa results field_name) w)).

(** The script body, lines 125-149: the exit status and the final world.
    [sys.exit(1)] and an exception nobody catches both end the process with
    status 1; running off the end of the script ends it with status 0. *)
Definition main (argv : list string) (w : World (RandomState L))
  : Z * World (RandomState L) :=
  match argv with
  | [_; input_shapefile; field_name; weight_type] =>
      match calc_local_morans input_shapefile field_name weight_type w with
      | (Raised e, w') => (1%Z, emit (Traceback e) w')
      | (Returned (Some results), w') =>
          match save_and_plot results field_name w' with
          | (Returned _, w'') => (0%Z, w'')
          | (Raised e, w'') => (1%Z, emit (Traceback e) w'')
          end
      | (Returned None, w') =>
          (0%Z, emit (Print (json_error "Calculation failed")) w')
      end
  | _ =>
      (1%Z, emit (Print (json_error "Incorrect number of arguments provided.")) w)
  end.

End Program.

(** The files a run wrote. *)
Definition written (tr : list event) : list string :=
  omap (fun ev => match ev with
                  | ToFile path _ _ => Some path
                  | ToCsv path _ => Some path
                  | _ => None
                  end) tr.


(** ** The statistical engine, after the specification

    [Moran_Local] belongs to [esda]; the script only calls it.  The module
    below writes the engine down from the specification's sections 3 and
    4.3 to 4.6, for the claims that speak about what the engine computes. *)
Module SpecEngine.

(** Modelled from the spec: the weights matrix, "a sparse mapping
    i -> {(j, w_ij)}"; [esda] and [libpysal] are not part of the
    repository. *)
Definition Weights : Type := list (list (nat * Q)).

(** Modelled from the spec: the "source of randomness" of section 4.5: the
    numbers the generator yields, and how many of them have been used. *)
Record RandomSource : Type := MkSource { gen : N → N; pos : N }.

(** Modelled from the spec: reading the next random number and moving
    past it. *)
Definition next (σ : RandomSource) : N := gen σ (pos σ).
Definition advance (σ : RandomSource) : RandomSource :=
  MkSource (gen σ) (N.succ (pos σ)).

(** Modelled from the spec: the arithmetic mean used by sections 3 and
    4.5. *)
Definition Qmean (xs : list Q) : Q :=
  Qsum xs / inject_Z (Z.of_nat (length xs)).

(** Modelled from the spec: "z_i = x_i - mean(x), where x is the attribute
    vector after missing-value imputation" (section 3). *)
Definition standardize (x : list Q) : list Q :=
  let mu := Qmean x in map (fun x_i => x_i - mu) x.

(** Modelled from the spec: "m2 = (1/n) Σ_k z_k²" (section 4.4). *)
Definition m2 (z : list Q) : Q :=
  (1 / inject_Z (Z.of_nat (length z))) * Qsum (map (fun z_k => z_k * z_k) z).

(** Modelled from the spec: "Σ_j w_ij · z_j, summed only over neighbors j
    of i"; a unit without neighbours gets 0. *)
Definition lag (row : list (nat * Q)) (z : list Q) : Q :=
  Qsum (map (fun jw => jw.2 * nth jw.1 z 0) row).

Inductive engine_error : Type := DegenerateInputError.

(** Modelled from the spec: "I_i = (z_i / m2) · Σ_j w_ij · z_j ...  If
    m2 = 0 (zero-variance attribute) fails with DegenerateInputError"
    (section 4.4). *)
Definition local_moran (z : list Q) (w : Weights) : engine_error + list Q :=
  let m := m2 z in
  if Qeq_bool m 0 then inl DegenerateInputError
  else inr (zip_with (fun z_i row => (z_i / m) * lag row z) z w).

(** Modelled from the spec: values "drawn without replacement from the
    other n-1 positions" (section 4.5): each draw takes the next random
    number modulo the size of what is left. *)
Fixpoint draw (k : nat) (pool : list Q) (σ : RandomSource)
  : list Q * RandomSource :=
  match k with
  | O => ([], σ)
  | S k' =>
      match pool with
      | [] => ([], σ)
      | _ :: _ =>
          let r := N.to_nat (next σ mod N.of_nat (length pool)) in
          let '(vs, σ') := draw k' (delete r pool) (advance σ) in
          (nth r pool 0 :: vs, σ')
      end
  end.

(** Modelled from the spec: one reference statistic, "the weights of i
    applied to randomly reassigned" values, the focal value held fixed. *)
Definition reference (z_i m : Q) (ws others : list Q) (σ : RandomSource)
  : Q * RandomSource :=
  let '(vs, σ') := draw (length ws) others σ in
  (Qred ((z_i / m) * Qsum (zip_with Qmult ws vs)), σ').

(** Modelled from the spec: "shuffled P times", giving the reference
    statistics I_i^(1) .. I_i^(P). *)
Fixpoint references (P : nat) (z_i m : Q) (ws others : list Q) (σ : RandomSource)
  : list Q * RandomSource :=
  match P with
  | O => ([], σ)
  | S P' =>
      let '(r, σ1) := reference z_i m ws others σ in
      let '(rs, σ2) := references P' z_i m ws others σ1 in
      (r :: rs, σ2)
  end.

(** Modelled from the spec: the "count of reference statistics" meeting
    a test. *)
Definition count_if (f : Q → bool) (xs : list Q) : nat :=
  length (filter (fun x => f x = true) xs).

(** Modelled from the spec: "c = count of reference statistics at least
    as extreme as the observed I_i (... for I_i >= 0 count references
    >= I_i; for I_i < 0 count references <= I_i)". *)
Definition count_extreme (I_i : Q) (refs : list Q) : nat :=
  if Qle_bool 0 I_i
  then count_if (fun r => Qle_bool I_i r) refs
  else count_if (fun r => Qle_bool r I_i) refs.

(** Modelled from the spec: the "stdev" of the reference statistics,
    through its square, the variance; the standard deviation is 0 exactly
    when the variance is. *)
Definition variance (xs : list Q) : Q :=
  let mu := Qmean xs in Qmean (map (fun x => (x - mu) * (x - mu)) xs).

(** Modelled from the spec: the formula "p_i = (c + 1) / (P + 1)". *)
Definition p_formula (I_i : Q) (refs : list Q) : Q :=
  inject_Z (Z.of_nat (count_extreme I_i refs + 1))
  / inject_Z (Z.of_nat (length refs + 1)).

(** Modelled from the spec: the pseudo p-value of section 4.5, with its
    rule "if stdev is 0 ... define z_i = 0 and p_i = 1". *)
Definition pseudo_p (I_i : Q) (refs : list Q) : Q :=
  if Qeq_bool (variance refs) 0 then 1 else p_formula I_i refs.


Section Unspecified.
(** What the specification leaves open: the square root used for the
    standard deviation (a float operation) and the quadrant of a unit
    whose value or neighbour average is exactly 0. *)
Variable sqrtQ : Q → Q.
Variable q_tie : Z.

(** Modelled from the spec: "z_i = (I_i - mean) / stdev; if stdev is 0
    ... define z_i = 0". *)
Definition z_score (I_i : Q) (refs : list Q) : Q :=
  let v := variance refs in
  if Qeq_bool v 0 then 0 else Qred ((I_i - Qmean refs) / sqrtQ v).

(** Modelled from the spec: the quadrant code of section 4.6. *)
Definition quadrant (z_i avg : Q) : Z :=
  if Qlt_bool 0 z_i && Qlt_bool 0 avg then 1%Z
  else if Qlt_bool z_i 0 && Qlt_bool 0 avg then 2%Z
  else if Qlt_bool z_i 0 && Qlt_bool avg 0 then 3%Z
  else if Qlt_bool 0 z_i && Qlt_bool avg 0 then 4%Z
  else q_tie.

(** Modelled from the spec: one unit of section 4.5, its observed
    statistic, its reference statistics and what is derived from them.
    The specification gives the p-value twice, by the formula of its
    p-value bullet and, in its z-score bullet, as 1 when the standard
    deviation is 0; [p_of] is the rule in force, [p_formula] or
    [pseudo_p]. *)
Definition unit_stat_by (p_of : Q → list Q → Q) (P : nat) (z : list Q) (m : Q)
    (i : nat) (row : list (nat * Q)) (σ : RandomSource)
  : LocalStat * RandomSource :=
  let z_i := nth i z 0 in
  let I_i := (z_i / m) * lag row z in
  let '(refs, σ') := references P z_i m (map snd row) (delete i z) σ in
  ({| Is_i := Some (Qred I_i);
      p_sim_i := Some (p_of I_i refs);
      z_sim_i := Some (z_score I_i refs);
      q_i := quadrant z_i (lag row z) |}, σ').

(** Modelled from the spec: the units in index order, "index order
    defines iteration" (section 3), one random source passed along. *)
Fixpoint units_by (p_of : Q → list Q → Q) (P : nat) (z : list Q) (m : Q) (i : nat)
    (w : Weights) (σ : RandomSource) : MoranLocal * RandomSource :=
  match w with
  | [] => ([], σ)
  | row :: w' =>
      let '(s, σ1) := unit_stat_by p_of P z m i row σ in
      let '(ss, σ2) := units_by p_of P z m (S i) w' σ1 in
      (s :: ss, σ2)
  end.

(** Modelled from the spec: sections 4.4 to 4.6 end to end, for an
    attribute vector [x] free of missing values, under a rule for the
    p-value. *)
Definition inference_by (p_of : Q → list Q → Q) (P : nat) (x : list Q)
    (w : Weights) (σ : RandomSource)
  : (engine_error + MoranLocal) * RandomSource :=
  let z := standardize x in
  let m := m2 z in
  if Qeq_bool m 0 then (inl DegenerateInputError, σ)
  else let '(ms, σ') := units_by p_of P z m 0 w σ in (inr ms, σ').

(** Modelled from the spec: the engine with both bullets in force. *)
Definition inference (P : nat) (x : list Q) (w : Weights) (σ : RandomSource)
  : (engine_error + MoranLocal) * RandomSource :=
  inference_by pseudo_p P x w σ.

(** Modelled from the spec: the engine behind the interface the script
    calls, [esda]'s [Moran_Local], with the "default 999" permutations.  The
    specification's engine never meets a missing value; here a column
    that still holds one is refused. *)
Definition Moran_Local (y : list float) (w : Weights) (σ : RandomSource)
  : outcome MoranLocal * RandomSource :=
  if decide (length (present y) = length y)
  then match inference 999 (present y) w σ with
       | (inl DegenerateInputError, σ') =>
           (Raised (Exn "DegenerateInputError" "zero-variance attribute"), σ')
       | (inr ms, σ') => (Returned ms, σ')
       end
  else (Raised (Exn "ValueError" "missing values in the attribute"), σ).
End Unspecified.

End SpecEngine.


(** ** A layer and a library to run the program on *)
Module Demo.

(** The unit square whose lower left corner is [(x, y)]. *)
Definition cell (x y : Z) : Geometry :=
  [[(inject_Z x, inject_Z y); (inject_Z (x + 1), inject_Z y);
    (inject_Z (x + 1), inject_Z (y + 1)); (inject_Z x, inject_Z (y + 1))]].

(** Four cells in a 2×2 layout, top row first. *)
Definition squares : list Geometry := [cell 0 1; cell 1 1; cell 0 0; cell 1 0].

Definition fl (n : Z) : float := Some (inject_Z n).

(** A layer with the attribute [value] (top row high, bottom row low), a
    second attribute [income], an attribute [p_value] of its own, and an
    attribute without any value. *)
Definition grid : DataFrame :=
  {| index_len := 4;
     data := {[ "value" := FloatCol [fl 10; fl 10; fl 1; fl 1];
                "income" := FloatCol [fl 10; fl 8; fl 1; fl 3];
                "p_value" := FloatCol [fl 7; None; fl 3; fl 5];
                "empty" := FloatCol [None; None; None; None];
                "geometry" := GeomCol squares ]} |}.

Definition row_of (js : list nat) : list (nat * Q) :=
  map (fun j => (j, 1 / inject_Z (Z.of_nat (length js)))) js.

(** Row-standardised contiguity of the 2×2 grid. *)
Definition queen_grid : SpecEngine.Weights :=
  [row_of [1; 2; 3]; row_of [0; 2; 3]; row_of [0; 1; 3]; row_of [0; 1; 2]]%nat.
Definition rook_grid : SpecEngine.Weights :=
  [row_of [1; 2]; row_of [0; 3]; row_of [0; 3]; row_of [1; 2]]%nat.

(** A rational square root to six decimals. *)
Definition sqrtQ (x : Q) : Q :=
  inject_Z (Z.sqrt (Qnum x * 10 ^ 12 / Zpos (Qden x))) / inject_Z (10 ^ 6).

(** The one layer on disk is [grid.shp]; the selectors used with this
    library are ASCII text, where [str.lower] is [ascii_lower]. *)
Definition lib : Library :=
  {| W := SpecEngine.Weights;
     RandomState := SpecEngine.RandomSource;
     read_file := fun path =>
       if String.eqb path "grid.shp" then Returned grid
       else Raised (Exn "DriverError" (path ++ ": No such file or directory"));
     Queen_from_dataframe := fun _ => Returned queen_grid;
     Rook_from_dataframe := fun _ => Returned rook_grid;
     Moran_Local := SpecEngine.Moran_Local sqrtQ 1;
     str_lower := ascii_lower |}.

(** A state of the random generator. *)
Definition gen_a : SpecEngine.RandomSource :=
  SpecEngine.MkSource (fun k => k) 0.

Definition start (σ : SpecEngine.RandomSource) : World SpecEngine.RandomSource :=
  MkWorld σ [].

(** The column of a given name in what [calc_local_morans] returned. *)
Definition result_column (name : string)
    (r : outcome (option Selection) * World SpecEngine.RandomSource)
  : option column :=
  match r.1 with
  | Returned (Some sel) => sel_lookup name (sel_columns sel)
  | _ => None
  end.

(** The name the script is started under. *)
Definition script : string := "calc_local_morans.py".

(** A significant unit of quadrant 3. *)
Definition sample_stat : LocalStat :=
  {| Is_i := Some (3 # 2); p_sim_i := Some (1 # 100);
     z_sim_i := Some (5 # 2); q_i := 3 |}.

(** The column of the specification's imputation scenario. *)
Definition scenario : list float :=
  [Some 2; Some 4; Some 6; Some 8; None].

(** A layer of five cells in a row that carries this column as its
    attribute [x]. *)
Definition scenario_layer : DataFrame :=
  {| index_len := 5;
     data := {[ "x" := FloatCol scenario;
                "geometry" := GeomCol [cell 0 0; cell 1 0; cell 2 0;
                                       cell 3 0; cell 4 0] ]} |}.

(** An attribute with one value everywhere. *)
Definition constant_attribute : list Q := [3 # 1; 3 # 1; 3 # 1; 3 # 1].

End Demo.


(** ** [plot_lisa]: the colours and the legend

    The part of [plot_lisa] that is data: the colour of every unit (lines
    87-99), the legend entries (lines 111-114) and the title (line 119).
    Drawing itself belongs to matplotlib. *)

(** Lines 87-93: a dict, kept in insertion order. *)
Definition custom_colors : list (string * string) :=
  [("Non-sig", "lightgrey");
   ("Hotspot (High-High)", "red");
   ("Coldspot(Low-Low)", "blue");
   ("outlier(Low-High)", "lightblue");
   ("outlier(High-Low)", "lightcoral")].

(** [d[key]] on a dict written as a list of items. *)
Fixpoint dict_get (key : string) (d : list (string * string)) : option string :=
  match d with
  | [] => None
  | (k, v) :: d' => if String.eqb k key then Some v else dict_get key d'
  end.

(** Line 96, [Series.map(dict)]: a value that is no key becomes NaN. *)
Definition map_colors (clust : list string) : list (option string) :=
  map (fun category => dict_get category custom_colors) clust.

(** Lines 96-99: the colour of every unit, [lightgrey] where line 96 left
    NaN. *)
Definition color_map (clust : list string) : list string :=
  map (fun c => default "lightgrey" c) (map_colors clust).

(** A legend handle, [mlines.Line2D([0], [0], color=..., lw=8, label=...)]. *)
Record Line2D : Type :=
  { line_color : string; line_lw : Z; line_label : string }.

(** Lines 111-114: one handle per item of the dict, in its order. *)
Definition legend_items : list Line2D :=
  map (fun item => {| line_color := item.2; line_lw := 8; line_label := item.1 |})
      custom_colors.

(** Line 119. *)
Definition plot_title (field_name : string) : string :=
  "LISA Cluster Map for " ++ field_name.


(** * Properties *)

(** ** Arithmetic helpers *)

Lemma Qsum_cons (x : Q) (xs : list Q) : Qsum (x :: xs) == x + Qsum xs.
Proof. unfold Qsum; simpl. apply Qred_correct. Qed.

Lemma Qsum_fold (xs : list Q) : Qsum xs == fold_right Qplus 0 xs.
Proof.
  induction xs as [|x xs IH]; [reflexivity|].
  rewrite Qsum_cons, IH. reflexivity.
Qed.

Lemma Qlt_bool_iff (x y : Q) : Qlt_bool x y = true ↔ x < y.
Proof.
  unfold Qlt_bool. rewrite negb_true_iff.
  split.
  - intros H. apply Qnot_le_lt. intros Hle.
    apply Qle_bool_iff in Hle. congruence.
  - intros H. destruct (Qle_bool y x) eqn:E; [|reflexivity].
    apply Qle_bool_iff in E. exfalso. apply (Qlt_not_le _ _ H E).
Qed.

(** ** The classifier *)

Lemma sig_map (m : MoranLocal) :
  sig (p_sim m) = map (fun s => (1 * b2z (float_lt (p_sim_i s) alpha))%Z) m.
Proof.
  unfold sig, scalar_mul, array_lt_scalar, p_sim.
  rewrite !map_map. reflexivity.
Qed.

Lemma categories_map (m : MoranLocal) :
  categories (q m) (p_sim m) = map code_of m.
Proof.
  unfold categories, hotspot, coldspot, outlier1, outlier2.
  rewrite sig_map.
  unfold array_add, array_mul, scalar_mul, array_eq_scalar, q.
  induction m as [|s m IH]; [reflexivity|].
  simpl. simpl in IH. rewrite IH. reflexivity.
Qed.

Lemma code_of_range (s : LocalStat) : (0 <= code_of s < 5)%Z.
Proof.
  unfold code_of.
  destruct (float_lt (p_sim_i s) alpha);
    destruct (q_i s =? 1)%Z eqn:E1; destruct (q_i s =? 3)%Z eqn:E3;
    destruct (q_i s =? 2)%Z eqn:E2; destruct (q_i s =? 4)%Z eqn:E4;
    simpl; lia.
Qed.

Lemma codes_valid (m : MoranLocal) :
  forallb (valid_code (length labels)) (map code_of m) = true.
Proof.
  apply forallb_forall. intros c Hc.
  apply in_map_iff in Hc as (s & <- & _).
  pose proof (code_of_range s) as Hr.
  unfold valid_code. simpl.
  apply andb_true_iff. split; [apply Z.leb_le | apply Z.ltb_lt]; lia.
Qed.

(** The codes never leave the range of the labels, so the categorical is
    always built. *)
Lemma LISA_Clust_returns (m : MoranLocal) :
  LISA_Clust m = Returned (map (fun s => code_to_str labels (code_of s)) m).
Proof.
  unfold LISA_Clust, from_codes. rewrite categories_map, codes_valid.
  simpl. unfold astype_str. simpl. rewrite map_map. reflexivity.
Qed.

Lemma LISA_Clust_length (m : MoranLocal) (labs : list string) :
  LISA_Clust m = Returned labs → length labs = length m.
Proof.
  rewrite LISA_Clust_returns. intros [= <-]. apply length_map.
Qed.

Lemma float_lt_iff (x : float) (k : Q) :
  float_lt x k = true ↔ ∃ p, x = Some p ∧ p < k.
Proof.
  destruct x as [p|]; simpl.
  - rewrite Qlt_bool_iff. split; [eauto|]. intros (p' & [= <-] & H). exact H.
  - split; [discriminate|]. intros (p & [=] & _).
Qed.

(** C1, as the code has it.  For every unit, the significance flag is 1
    exactly when the p-value is a number strictly below 0.05 and 0
    otherwise, and the label written to [LISA_Clust] is [Non-sig] for flag
    0 and, for flag 1, [Hotspot (High-High)] in quadrant 1,
    [Coldspot(Low-Low)] in quadrant 3, [outlier(Low-High)] in quadrant 2
    and [outlier(High-Low)] in quadrant 4: the last three labels are
    spelled as in line 64, not as in the specification. *)
Theorem classifier_labels_as_coded (m : MoranLocal) (i : nat) (s : LocalStat) :
  m !! i = Some s →
  ∃ (sig_i : Z) (lab : string),
    sig (p_sim m) !! i = Some sig_i
    ∧ (∃ labs, LISA_Clust m = Returned labs ∧ labs !! i = Some lab)
    ∧ (sig_i = 1 ∨ sig_i = 0)%Z
    ∧ (sig_i = 1%Z ↔ ∃ p, p_sim_i s = Some p ∧ p < 5 # 100)
    ∧ (sig_i = 0%Z → lab = "Non-sig")
    ∧ (sig_i = 1%Z → q_i s = 1%Z → lab = "Hotspot (High-High)")
    ∧ (sig_i = 1%Z → q_i s = 3%Z → lab = "Coldspot(Low-Low)")
    ∧ (sig_i = 1%Z → q_i s = 2%Z → lab = "outlier(Low-High)")
    ∧ (sig_i = 1%Z → q_i s = 4%Z → lab = "outlier(High-Low)").
Proof.
  intros Hi.
  exists (1 * b2z (float_lt (p_sim_i s) alpha))%Z,
         (code_to_str labels (code_of s)).
  split; [rewrite sig_map, list_lookup_fmap, Hi; reflexivity|].
  split.
  { eexists. split; [apply LISA_Clust_returns|].
    rewrite list_lookup_fmap, Hi. reflexivity. }
  pose proof (float_lt_iff (p_sim_i s) alpha) as Hlt.
  unfold code_of.
  destruct (float_lt (p_sim_i s) alpha); simpl b2z.
  - split; [left; reflexivity|].
    split; [split; [intros _; apply Hlt; reflexivity | reflexivity]|].
    split; [discriminate|].
    repeat split; intros _ ->; reflexivity.
  - split; [right; reflexivity|].
    split.
    { split; [discriminate|]. intros Hp. apply Hlt in Hp. discriminate. }
    split.
    { intros _. rewrite !Z.mul_0_r. reflexivity. }
    repeat split; discriminate.
Qed.

Lemma classifier_labels_as_coded_witness :
  [Demo.sample_stat] !! 0%nat = Some Demo.sample_stat
  ∧ ∃ (sig_i : Z) (lab : string),
      sig (p_sim [Demo.sample_stat]) !! 0%nat = Some sig_i
      ∧ (∃ labs, LISA_Clust [Demo.sample_stat] = Returned labs ∧ labs !! 0%nat = Some lab)
      ∧ (sig_i = 1 ∨ sig_i = 0)%Z
      ∧ (sig_i = 1%Z ↔ ∃ p, p_sim_i Demo.sample_stat = Some p ∧ p < 5 # 100)
      ∧ (sig_i = 0%Z → lab = "Non-sig")
      ∧ (sig_i = 1%Z → q_i Demo.sample_stat = 1%Z → lab = "Hotspot (High-High)")
      ∧ (sig_i = 1%Z → q_i Demo.sample_stat = 3%Z → lab = "Coldspot(Low-Low)")
      ∧ (sig_i = 1%Z → q_i Demo.sample_stat = 2%Z → lab = "outlier(Low-High)")
      ∧ (sig_i = 1%Z → q_i Demo.sample_stat = 4%Z → lab = "outlier(High-Low)").
Proof.
  split; [reflexivity|].
  apply (classifier_labels_as_coded [Demo.sample_stat] 0 Demo.sample_stat).
  reflexivity.
Defined.

(** C1 as the specification words it fails: a significant unit of quadrant
    3 is labelled [Coldspot(Low-Low)], without the space. *)
Lemma classifier_spec_labels_counterexample :
  sig (p_sim [Demo.sample_stat]) = [1%Z]
  ∧ q [Demo.sample_stat] = [3%Z]
  ∧ LISA_Clust [Demo.sample_stat] = Returned ["Coldspot(Low-Low)"]
  ∧ LISA_Clust [Demo.sample_stat] ≠ Returned ["Coldspot (Low-Low)"].
Proof.
  repeat split; try reflexivity.
  vm_compute. discriminate.
Qed.

(** ** Imputation *)

Lemma numeric_column_set_series (field : string) (xs : list float) (df : DataFrame) :
  numeric_column field (set_series field (FloatCol xs) df) = Returned xs.
Proof.
  unfold numeric_column, set_series. simpl.
  rewrite lookup_insert_eq. reflexivity.
Qed.

(** Lines 42-76 as one call of [Moran_Local] on the filled column, followed
    by the assembly. *)
Lemma lisa_unfold (L : Library) (field : string) (df : DataFrame) (xs : list float)
    (weights : W L) (wd : World (RandomState L)) :
  data df !! field = Some (FloatCol xs) →
  lisa L field df weights wd
  = match Moran_Local L (handle_missing xs) weights (rng wd) with
    | (Returned m, g) =>
        (assemble field (set_series field (FloatCol (handle_missing xs)) df) m,
         MkWorld g (trace wd))
    | (Raised e, g) => (Raised e, MkWorld g (trace wd))
    end.
Proof.
  intros Hcol. unfold lisa, bind, lift, fill_field, obind.
  unfold numeric_column at 1. rewrite Hcol.
  rewrite numeric_column_set_series.
  unfold call_Moran_Local.
  destruct (Moran_Local L (handle_missing xs) weights (rng wd)) as [[m|e] g];
    reflexivity.
Qed.



Lemma mean_present (xs : list float) :
  present xs ≠ [] →
  ∃ v, mean xs = Some v
       ∧ v == fold_right Qplus 0 (present xs)
              / inject_Z (Z.of_nat (length (present xs))).
Proof.
  intros Hne. unfold mean.
  destruct (present xs) as [|a vs] eqn:E; [congruence|].
  eexists. split; [reflexivity|].
  rewrite Qsum_fold. reflexivity.
Qed.

Lemma mean_all_missing (xs : list float) :
  Forall (fun x => x = None) xs → mean xs = None.
Proof.
  intros Hall. unfold mean.
  assert (present xs = []) as ->; [|reflexivity].
  unfold present. induction Hall as [|x xs -> _ IH]; [reflexivity|].
  simpl. exact IH.
Qed.

(** C3.  Line 43 replaces the entries.  For a numeric field with at least
    one present value, the frame that line 43 leaves holds, under the
    field's name, a column of the same length in which every entry that
    was missing is the arithmetic mean of the present values of the column
    as it was read, and every present entry is as it was; the other
    columns are untouched, and this filled column is the one handed to
    [Moran_Local].  For the column [2, 4, 6, 8, NA] the missing entry
    becomes 5 and the standardized value of that unit is 0. *)
Theorem missing_filled_with_mean_of_present (field : string) (df : DataFrame)
    (xs : list float) (i : nat) :
  data df !! field = Some (FloatCol xs) →
  present xs ≠ [] → xs !! i = Some None →
  (∃ df' ys v,
      fill_field field df = Returned df'
      ∧ data df' !! field = Some (FloatCol ys)
      ∧ ys !! i = Some (Some v)
      ∧ v == fold_right Qplus 0 (present xs)
             / inject_Z (Z.of_nat (length (present xs)))
      ∧ (∀ j u, xs !! j = Some (Some u) → ys !! j = Some (Some u))
      ∧ length ys = length xs
      ∧ index_len df' = index_len df
      ∧ (∀ other, other ≠ field → data df' !! other = data df !! other)
      ∧ ∀ (L : Library) (weights : W L) (wd : World (RandomState L)),
          lisa L field df weights wd
          = match Moran_Local L ys weights (rng wd) with
            | (Returned m, g) => (assemble field df' m, MkWorld g (trace wd))
            | (Raised e, g) => (Raised e, MkWorld g (trace wd))
            end)
  ∧ (∃ df' ys v,
        fill_field "x" Demo.scenario_layer = Returned df'
        ∧ data df' !! "x" = Some (FloatCol ys)
        ∧ ys !! 4%nat = Some (Some v) ∧ v == 5
        ∧ SpecEngine.standardize (present ys) !! 4%nat
          = Some (v - SpecEngine.Qmean (present ys))
        ∧ v - SpecEngine.Qmean (present ys) == 0).
Proof.
  intros Hcol Hne Hi. split.
  - destruct (mean_present xs Hne) as (v & Hm & Hv).
    exists (set_series field (FloatCol (handle_missing xs)) df),
           (handle_missing xs), v.
    split.
    { unfold fill_field, numeric_column, obind. rewrite Hcol. reflexivity. }
    split.
    { unfold set_series. cbn [data]. apply lookup_insert_eq. }
    split.
    { unfold handle_missing. rewrite Hm. simpl.
      rewrite list_lookup_fmap, Hi. reflexivity. }
    split; [exact Hv|].
    split.
    { intros j u Hj. unfold handle_missing. rewrite Hm. simpl.
      rewrite list_lookup_fmap, Hj. reflexivity. }
    split.
    { unfold handle_missing. rewrite Hm. apply length_map. }
    split; [reflexivity|].
    split.
    { intros other Hother. unfold set_series. cbn [data].
      apply lookup_insert_ne. congruence. }
    intros L weights wd. apply (lisa_unfold L field df xs weights wd Hcol).
  - eexists _, _, _.
    split; [reflexivity|]. split; [reflexivity|]. split; [reflexivity|].
    split; [reflexivity|]. split; [reflexivity|].
    vm_compute. reflexivity.
Qed.

Lemma missing_filled_with_mean_of_present_witness :
  data Demo.scenario_layer !! "x" = Some (FloatCol Demo.scenario)
  ∧ present Demo.scenario ≠ [] ∧ Demo.scenario !! 4%nat = Some None
  ∧ ∃ df' ys v,
      fill_field "x" Demo.scenario_layer = Returned df'
      ∧ data df' !! "x" = Some (FloatCol ys)
      ∧ ys !! 4%nat = Some (Some v)
      ∧ v == fold_right Qplus 0 (present Demo.scenario)
             / inject_Z (Z.of_nat (length (present Demo.scenario))).
Proof.
  assert (H1 : data Demo.scenario_layer !! "x" = Some (FloatCol Demo.scenario))
    by reflexivity.
  assert (H2 : present Demo.scenario ≠ []) by discriminate.
  assert (H3 : Demo.scenario !! 4%nat = Some None) by reflexivity.
  split; [exact H1|]. split; [exact H2|]. split; [exact H3|].
  destruct (proj1 (missing_filled_with_mean_of_present "x" Demo.scenario_layer
                     Demo.scenario 4%nat H1 H2 H3))
    as (df' & ys & v & Hf & Hc & Hy & Hv & _).
  exists df', ys, v. auto.
Defined.

(** ** The paths through [calc_local_morans] and [main] *)

Lemma written_app (tr1 tr2 : list event) :
  written (tr1 ++ tr2) = written tr1 ++ written tr2.
Proof. unfold written. apply omap_app. Qed.

Lemma written_print {R : Type} (line : string) (w : World R) :
  written (trace (emit (Print line) w)) = written (trace w).
Proof. simpl. rewrite written_app. simpl. apply app_nil_r. Qed.

Section Paths.
Context (L : Library).

Lemma select_weights_none (weight_type : string) (df : DataFrame) :
  str_lower L weight_type ≠ "queen" → str_lower L weight_type ≠ "rook" →
  select_weights L weight_type df = None.
Proof.
  intros Hq Hr. unfold select_weights.
  apply String.eqb_neq in Hq, Hr. rewrite Hq, Hr. reflexivity.
Qed.

Lemma calc_read_failed (input field wt : string) (e : exn)
    (wd : World (RandomState L)) :
  read_file L input = Raised e →
  calc_local_morans L input field wt wd
  = (Returned None, emit (Print ("Failed to read shapefile: " ++ exn_msg e)) wd).
Proof. intros H. unfold calc_local_morans. rewrite H. reflexivity. Qed.

Lemma calc_field_missing (input field wt : string) (df : DataFrame)
    (wd : World (RandomState L)) :
  read_file L input = Returned df → has_column field df = false →
  calc_local_morans L input field wt wd
  = (Returned None,
     emit (Print ("Field '" ++ field ++ "' not found in the shapefile attributes.")) wd).
Proof. intros H1 H2. unfold calc_local_morans. rewrite H1, H2. reflexivity. Qed.

Lemma calc_invalid_weight (input field wt : string) (df : DataFrame)
    (wd : World (RandomState L)) :
  read_file L input = Returned df → has_column field df = true →
  select_weights L wt df = None →
  calc_local_morans L input field wt wd
  = (Returned None, emit (Print invalid_weight_message) wd).
Proof.
  intros H1 H2 H3. unfold calc_local_morans. rewrite H1, H2, H3. reflexivity.
Qed.

(** With a layer, its field and a valid selector, the function is the
    weights constructor followed by lines 42-76. *)
Lemma calc_valid (input field wt : string) (df : DataFrame)
    (build : outcome (W L)) (wd : World (RandomState L)) :
  read_file L input = Returned df → has_column field df = true →
  select_weights L wt df = Some build →
  calc_local_morans L input field wt wd
  = match build with
    | Returned weights =>
        match lisa L field df weights wd with
        | (Returned sel, wd') => (Returned (Some sel), wd')
        | (Raised e, wd') => (Raised e, wd')
        end
    | Raised e => (Raised e, wd)
    end.
Proof.
  intros H1 H2 H3. unfold calc_local_morans. rewrite H1, H2, H3. simpl.
  unfold bind, lift, ret. destruct build; [|reflexivity].
  destruct (lisa L field df a wd) as [[sel|e] wd']; reflexivity.
Qed.

(** A run whose function call returned [None] prints the error object,
    writes nothing and ends with status 0. *)
Lemma main_after_none (prog input field wt : string)
    (wd wd' : World (RandomState L)) :
  calc_local_morans L input field wt wd = (Returned None, wd') →
  main L [prog; input; field; wt] wd
  = (0%Z, emit (Print (json_error "Calculation failed")) wd').
Proof. intros H. unfold main. rewrite H. reflexivity. Qed.

End Paths.

(** ** Contiguity selector *)

Lemma calc_valid_not_none (L : Library) (input field wt : string) (df : DataFrame)
    (build : outcome (W L)) (wd : World (RandomState L)) :
  read_file L input = Returned df → has_column field df = true →
  select_weights L wt df = Some build →
  (calc_local_morans L input field wt wd).1 ≠ Returned None.
Proof.
  intros H1 H2 H3. rewrite (calc_valid L _ _ _ _ _ _ H1 H2 H3).
  destruct build as [weights|e]; [|discriminate].
  destruct (lisa L field df weights wd) as [[sel|e] wd']; discriminate.
Qed.

Lemma lower_on_ascii_demo : lower_on_ascii Demo.lib.
Proof. intros s _. reflexivity. Qed.

(** C10.  The selector is compared after lowering its case.  For a string
    whose lower-case form is [queen] the weights constructor chosen is
    Queen's, for one whose lower-case form is [rook] it is Rook's; with a
    layer that was read and holds the field, the call is then that
    constructor applied to the layer followed by lines 42-76 on its
    weights (so [Moran_Local] receives exactly these weights), and it does
    not end in the invalid-weight-type branch: it never returns [None].
    [Queen] and [ROOK] are such strings. *)
Theorem selector_case_insensitive (L : Library) (wt : string) (df : DataFrame)
    (ctor : DataFrame → outcome (W L)) :
  (str_lower L wt = "queen" ∧ ctor = Queen_from_dataframe L)
  ∨ (str_lower L wt = "rook" ∧ ctor = Rook_from_dataframe L) →
  select_weights L wt df = Some (ctor df)
  ∧ (∀ input field wd,
       read_file L input = Returned df → has_column field df = true →
       calc_local_morans L input field wt wd
       = match ctor df with
         | Returned weights =>
             match lisa L field df weights wd with
             | (Returned sel, wd') => (Returned (Some sel), wd')
             | (Raised e, wd') => (Raised e, wd')
             end
         | Raised e => (Raised e, wd)
         end
       ∧ (calc_local_morans L input field wt wd).1 ≠ Returned None
       ∧ ∀ weights xs,
           ctor df = Returned weights →
           data df !! field = Some (FloatCol xs) →
           calc_local_morans L input field wt wd
           = match Moran_Local L (handle_missing xs) weights (rng wd) with
             | (Returned m, g) =>
                 (match assemble field
                          (set_series field (FloatCol (handle_missing xs)) df) m
                  with
                  | Returned sel => Returned (Some sel)
                  | Raised e => Raised e
                  end, MkWorld g (trace wd))
             | (Raised e, g) => (Raised e, MkWorld g (trace wd))
             end)
  ∧ (lower_on_ascii L →
     str_lower L "Queen" = "queen" ∧ str_lower L "ROOK" = "rook").
Proof.
  intros Hsel.
  assert (Hw : select_weights L wt df = Some (ctor df)).
  { unfold select_weights.
    destruct Hsel as [[Hl ->]|[Hl ->]]; rewrite Hl; reflexivity. }
  split; [exact Hw|]. split.
  - intros input field wd Hread Hcol.
    pose proof (calc_valid L _ _ _ _ _ wd Hread Hcol Hw) as Hcalc.
    split; [exact Hcalc|]. split.
    + exact (calc_valid_not_none L _ _ _ _ _ wd Hread Hcol Hw).
    + intros weights xs Hctor Hxs. rewrite Hcalc, Hctor.
      rewrite (lisa_unfold L field df xs weights wd Hxs).
      destruct (Moran_Local L (handle_missing xs) weights (rng wd)) as [[m|e] g];
        [|reflexivity].
      destruct (assemble field _ m); reflexivity.
  - intros Hascii. split; rewrite Hascii; reflexivity.
Qed.

Lemma selector_case_insensitive_witness :
  (str_lower Demo.lib "Queen" = "queen"
   ∧ Queen_from_dataframe Demo.lib = Queen_from_dataframe Demo.lib)
  ∧ select_weights Demo.lib "Queen" Demo.grid = Some (Returned Demo.queen_grid)
  ∧ (calc_local_morans Demo.lib "grid.shp" "value" "Queen"
       (Demo.start Demo.gen_a)).1 ≠ Returned None.
Proof.
  assert (H : str_lower Demo.lib "Queen" = "queen"
              ∧ Queen_from_dataframe Demo.lib = Queen_from_dataframe Demo.lib)
    by (split; reflexivity).
  split; [exact H|].
  destruct (selector_case_insensitive Demo.lib "Queen" Demo.grid
              (Queen_from_dataframe Demo.lib) (or_introl H)) as (Hw & Hc & _).
  split; [exact Hw|].
  destruct (Hc "grid.shp" "value" (Demo.start Demo.gen_a)) as (_ & Hn & _);
    [reflexivity | reflexivity | exact Hn].
Defined.

(** C6.  A selector whose lower-case form is neither [queen] nor [rook]
    (such as [hex]) makes the call return [None] after one printed
    message; when the layer was read and holds the field, that message is
    the invalid-weight-type one; and the run writes no file. *)
Theorem invalid_selector_fails (L : Library) (prog input field wt : string)
    (wd : World (RandomState L)) :
  str_lower L wt ≠ "queen" → str_lower L wt ≠ "rook" →
  (∃ line, calc_local_morans L input field wt wd
           = (Returned None, emit (Print line) wd))
  ∧ (∀ df, read_file L input = Returned df → has_column field df = true →
       calc_local_morans L input field wt wd
       = (Returned None, emit (Print invalid_weight_message) wd))
  ∧ written (trace (main L [prog; input; field; wt] wd).2) = written (trace wd)
  ∧ (lower_on_ascii L →
     str_lower L "hex" ≠ "queen" ∧ str_lower L "hex" ≠ "rook").
Proof.
  intros Hq Hr.
  assert (Hline : ∃ line, calc_local_morans L input field wt wd
                          = (Returned None, emit (Print line) wd)).
  { destruct (read_file L input) as [df|e] eqn:Hread.
    - destruct (has_column field df) eqn:Hcol.
      + eexists. apply (calc_invalid_weight L _ _ _ df); auto.
        apply select_weights_none; assumption.
      + eexists. apply (calc_field_missing L _ _ _ df); auto.
    - eexists. apply (calc_read_failed L _ _ _ e); auto. }
  split; [exact Hline|]. split; [|split].
  - intros df H1 H2. apply (calc_invalid_weight L _ _ _ df); auto.
    apply select_weights_none; assumption.
  - destruct Hline as (line & Hcalc).
    rewrite (main_after_none L prog _ _ _ _ _ Hcalc). simpl snd.
    rewrite !written_print. reflexivity.
  - intros Hascii. rewrite Hascii by reflexivity. split; discriminate.
Qed.

Lemma invalid_selector_fails_witness :
  str_lower Demo.lib "hex" ≠ "queen" ∧ str_lower Demo.lib "hex" ≠ "rook"
  ∧ calc_local_morans Demo.lib "grid.shp" "value" "hex" (Demo.start Demo.gen_a)
    = (Returned None, emit (Print invalid_weight_message) (Demo.start Demo.gen_a))
  ∧ written (trace (main Demo.lib ["calc_local_morans.py"; "grid.shp"; "value"; "hex"]
                         (Demo.start Demo.gen_a)).2) = [].
Proof.
  split; [discriminate|]. split; [discriminate|].
  pose proof (invalid_selector_fails Demo.lib "calc_local_morans.py" "grid.shp"
                "value" "hex" (Demo.start Demo.gen_a)) as H.
  destruct H as (_ & Hmsg & Hw & _); [discriminate | discriminate |].
  split; [|exact Hw].
  apply (Hmsg Demo.grid); reflexivity.
Defined.

(** ** Failing runs *)

(** C5 on the code.  A run that fails inside [calc_local_morans] (bad
    selector, missing field, unreadable layer) prints its reason and the
    error object and writes no file, but it ends with status 0; only the
    argument-count check ends with status 1. *)
Theorem failing_runs_end_with_status_zero :
  main Demo.lib [Demo.script; "grid.shp"; "value"; "hex"] (Demo.start Demo.gen_a)
  = (0%Z, MkWorld Demo.gen_a
            [Print invalid_weight_message;
             Print (json_error "Calculation failed")])
  ∧ main Demo.lib [Demo.script; "grid.shp"; "height"; "queen"] (Demo.start Demo.gen_a)
    = (0%Z, MkWorld Demo.gen_a
              [Print "Field 'height' not found in the shapefile attributes.";
               Print (json_error "Calculation failed")])
  ∧ main Demo.lib [Demo.script; "nowhere.shp"; "value"; "queen"] (Demo.start Demo.gen_a)
    = (0%Z, MkWorld Demo.gen_a
              [Print "Failed to read shapefile: nowhere.shp: No such file or directory";
               Print (json_error "Calculation failed")])
  ∧ main Demo.lib [Demo.script; "grid.shp"; "value"] (Demo.start Demo.gen_a)
    = (1%Z, MkWorld Demo.gen_a
              [Print (json_error "Incorrect number of arguments provided.")]).
Proof. repeat split; reflexivity. Qed.

Lemma lisa_trace (L : Library) (field : string) (df : DataFrame) (weights : W L)
    (wd : World (RandomState L)) :
  trace (lisa L field df weights wd).2 = trace wd.
Proof.
  unfold lisa, bind, lift.
  destruct (fill_field field df) as [df1|e]; [|reflexivity].
  destruct (numeric_column field df1) as [y|e]; [|reflexivity].
  unfold call_Moran_Local.
  destruct (Moran_Local L y weights (rng wd)) as [[m|e] g]; reflexivity.
Qed.

Lemma calc_writes_nothing (L : Library) (input field wt : string)
    (wd : World (RandomState L)) :
  written (trace (calc_local_morans L input field wt wd).2) = written (trace wd).
Proof.
  unfold calc_local_morans.
  destruct (read_file L input) as [df|e]; [|apply (written_print _ wd)].
  destruct (has_column field df); cbn [negb]; [|apply (written_print _ wd)].
  destruct (select_weights L wt df) as [[weights|e]|];
    [| reflexivity | apply (written_print _ wd)].
  unfold bind, lift, ret. cbv beta iota.
  pose proof (lisa_trace L field df weights wd) as Ht.
  destruct (lisa L field df weights wd) as [[sel|e] wd']; simpl in *;
    rewrite Ht; reflexivity.
Qed.

(** A run given three arguments whose function call does not return a
    result (it returned [None] or raised) writes no file: the two writers
    are reached only with a result in hand. *)
Theorem run_without_result_writes_nothing (L : Library)
    (prog input field wt : string) (wd : World (RandomState L)) :
  (∀ sel, (calc_local_morans L input field wt wd).1 ≠ Returned (Some sel)) →
  written (trace (main L [prog; input; field; wt] wd).2) = written (trace wd).
Proof.
  intros Hno. unfold main.
  pose proof (calc_writes_nothing L input field wt wd) as Hw.
  destruct (calc_local_morans L input field wt wd) as [[[sel|]|e] wd'];
    simpl in *.
  - destruct (Hno sel). reflexivity.
  - rewrite written_app. simpl. rewrite app_nil_r. exact Hw.
  - rewrite written_app. simpl. rewrite app_nil_r. exact Hw.
Qed.

Lemma run_without_result_writes_nothing_witness :
  (∀ sel, (calc_local_morans Demo.lib "nowhere.shp" "value" "queen"
             (Demo.start Demo.gen_a)).1 ≠ Returned (Some sel))
  ∧ written (trace (main Demo.lib [Demo.script; "nowhere.shp"; "value"; "queen"]
                      (Demo.start Demo.gen_a)).2) = [].
Proof.
  assert (H : ∀ sel, (calc_local_morans Demo.lib "nowhere.shp" "value" "queen"
                        (Demo.start Demo.gen_a)).1 ≠ Returned (Some sel))
    by (intros sel; vm_compute; discriminate).
  split; [exact H|].
  apply (run_without_result_writes_nothing Demo.lib Demo.script "nowhere.shp" "value"
           "queen" (Demo.start Demo.gen_a) H).
Defined.

(** A run whose function call raises ends with status 1, after the
    traceback, and has written no file. *)
Theorem run_that_raises_ends_with_status_one (L : Library)
    (prog input field wt : string) (e : exn) (wd : World (RandomState L)) :
  (calc_local_morans L input field wt wd).1 = Raised e →
  (main L [prog; input; field; wt] wd).1 = 1%Z
  ∧ last (trace (main L [prog; input; field; wt] wd).2) = Some (Traceback e)
  ∧ written (trace (main L [prog; input; field; wt] wd).2) = written (trace wd).
Proof.
  intros He.
  pose proof (calc_writes_nothing L input field wt wd) as Hw.
  unfold main.
  destruct (calc_local_morans L input field wt wd) as [[r|e'] wd'];
    [discriminate|].
  simpl in *. injection He as ->.
  split; [reflexivity|]. split; [apply last_snoc|].
  rewrite written_app. simpl. rewrite app_nil_r. exact Hw.
Qed.

Lemma run_that_raises_ends_with_status_one_witness :
  (calc_local_morans Demo.lib "grid.shp" "geometry" "queen"
     (Demo.start Demo.gen_a)).1
  = Raised (Exn "TypeError" "column is not numeric")
  ∧ (main Demo.lib [Demo.script; "grid.shp"; "geometry"; "queen"]
       (Demo.start Demo.gen_a)).1 = 1%Z.
Proof.
  assert (H : (calc_local_morans Demo.lib "grid.shp" "geometry" "queen"
                 (Demo.start Demo.gen_a)).1
              = Raised (Exn "TypeError" "column is not numeric"))
    by (vm_compute; reflexivity).
  split; [exact H|].
  apply (run_that_raises_ends_with_status_one Demo.lib Demo.script "grid.shp"
           "geometry" "queen" _ (Demo.start Demo.gen_a) H).
Defined.

(** A run whose function call returns a result writes the GeoJSON file and
    then the CSV file, and nothing else, hands the result to the renderer
    and ends with status 0. *)
Theorem run_with_result_writes_both_files (L : Library)
    (prog input field wt : string) (sel : Selection) (wd : World (RandomState L)) :
  (calc_local_morans L input field wt wd).1 = Returned (Some sel) →
  (main L [prog; input; field; wt] wd).1 = 0%Z
  ∧ written (trace (main L [prog; input; field; wt] wd).2)
    = written (trace wd) ++ [geojson_output; csv_output]
  ∧ last (trace (main L [prog; input; field; wt] wd).2)
    = Some (PlotLisa sel field).
Proof.
  intros Hs.
  pose proof (calc_writes_nothing L input field wt wd) as Hw.
  unfold main.
  destruct (calc_local_morans L input field wt wd) as [[[r|]|e'] wd'];
    try discriminate.
  simpl in Hs. injection Hs as ->.
  unfold save_and_plot, bind, print, emit. cbn [rng trace fst snd].
  split; [reflexivity|]. split.
  - rewrite !written_app. cbn [written omap]. simpl in Hw. rewrite Hw.
    rewrite !app_nil_r, <- app_assoc. reflexivity.
  - apply last_snoc.
Qed.

Lemma run_with_result_writes_both_files_witness :
  ∃ sel,
    (calc_local_morans Demo.lib "grid.shp" "value" "queen"
       (Demo.start Demo.gen_a)).1 = Returned (Some sel)
    ∧ (main Demo.lib [Demo.script; "grid.shp"; "value"; "queen"]
         (Demo.start Demo.gen_a)).1 = 0%Z
    ∧ written (trace (main Demo.lib [Demo.script; "grid.shp"; "value"; "queen"]
                        (Demo.start Demo.gen_a)).2)
      = ["local_morans_results.geojson"; "local_morans_results.csv"].
Proof.
  assert (H : ∃ sel, (calc_local_morans Demo.lib "grid.shp" "value" "queen"
                        (Demo.start Demo.gen_a)).1 = Returned (Some sel))
    by (eexists; vm_compute; reflexivity).
  destruct H as [sel H]. exists sel. split; [exact H|].
  destruct (run_with_result_writes_both_files Demo.lib Demo.script "grid.shp"
              "value" "queen" sel (Demo.start Demo.gen_a) H) as (H0 & Hw & _).
  split; [exact H0 | exact Hw].
Defined.

(** ** An attribute without any value *)

Lemma handle_missing_all_missing (xs : list float) :
  Forall (fun x => x = None) xs → handle_missing xs = xs.
Proof.
  intros Hall. unfold handle_missing.
  rewrite (mean_all_missing xs Hall). reflexivity.
Qed.

(** C8, as the code has it.  When every value of the field is missing the
    mean is NaN, line 43 leaves the column as it is and raises nothing,
    and the computation goes on: [Moran_Local] is called on the column that
    is still entirely missing, and its outcome decides the rest. *)
Theorem all_missing_is_passed_on (L : Library) (field : string) (df : DataFrame)
    (xs : list float) (weights : W L) (wd : World (RandomState L)) :
  data df !! field = Some (FloatCol xs) →
  Forall (fun x => x = None) xs →
  mean xs = None
  ∧ fill_field field df = Returned (set_series field (FloatCol xs) df)
  ∧ lisa L field df weights wd
    = match Moran_Local L xs weights (rng wd) with
      | (Returned m, g) =>
          (assemble field (set_series field (FloatCol xs) df) m,
           MkWorld g (trace wd))
      | (Raised e, g) => (Raised e, MkWorld g (trace wd))
      end.
Proof.
  intros Hcol Hall.
  split; [apply mean_all_missing; exact Hall|]. split.
  - unfold fill_field, numeric_column, obind. rewrite Hcol.
    rewrite (handle_missing_all_missing xs Hall). reflexivity.
  - rewrite (lisa_unfold L field df xs weights wd Hcol).
    rewrite (handle_missing_all_missing xs Hall). reflexivity.
Qed.

Lemma all_missing_is_passed_on_witness :
  data Demo.grid !! "empty" = Some (FloatCol [None; None; None; None])
  ∧ Forall (fun x : float => x = None) [None; None; None; None]
  ∧ mean [None; None; None; None] = None
  ∧ fill_field "empty" Demo.grid
    = Returned (set_series "empty" (FloatCol [None; None; None; None]) Demo.grid).
Proof.
  assert (H1 : data Demo.grid !! "empty" = Some (FloatCol [None; None; None; None]))
    by reflexivity.
  assert (H2 : Forall (fun x : float => x = None) [None; None; None; None])
    by (repeat constructor).
  split; [exact H1|]. split; [exact H2|].
  destruct (all_missing_is_passed_on Demo.lib "empty" Demo.grid _
              Demo.queen_grid (Demo.start Demo.gen_a) H1 H2) as (Hm & Hf & _).
  split; [exact Hm | exact Hf].
Defined.

(** C8 as the specification words it fails: on a field without any value
    line 43 returns a frame, it raises nothing. *)
Lemma all_missing_counterexample :
  data Demo.grid !! "empty" = Some (FloatCol [None; None; None; None])
  ∧ (∃ df, fill_field "empty" Demo.grid = Returned df
           ∧ data df !! "empty" = Some (FloatCol [None; None; None; None]))
  ∧ ∀ e, fill_field "empty" Demo.grid ≠ Raised e.
Proof.
  split; [reflexivity|]. split.
  - eexists. split; reflexivity.
  - intros e. vm_compute. discriminate.
Qed.

(** ** The assembled result *)

Lemma set_column_inv (name : string) (c : column) (df df' : DataFrame) :
  set_column name c df = Returned df' →
  column_length c = index_len df ∧ df' = set_series name c df.
Proof.
  unfold set_column.
  destruct (Nat.eqb (column_length c) (index_len df)) eqn:E; [|discriminate].
  intros [= <-]. apply Nat.eqb_eq in E. auto.
Qed.

Lemma assemble_success (field : string) (df : DataFrame) (m : MoranLocal)
    (sel : Selection) :
  field ∉ reserved_names →
  assemble field df m = Returned sel →
  ∃ c geom labs,
    data df !! field = Some c
    ∧ data df !! "geometry" = Some geom
    ∧ LISA_Clust m = Returned labs
    ∧ length m = index_len df
    ∧ sel = {| sel_len := index_len df;
               sel_columns :=
                 [(field, c); ("LocMoranI", FloatCol (Is m));
                  ("p_value", FloatCol (p_sim m)); ("Z_score", FloatCol (z_sim m));
                  ("LISA_Clust", StrCol labs); ("geometry", geom)] |}.
Proof.
  intros Hres. unfold assemble.
  destruct (set_column "LocMoranI" (FloatCol (Is m)) df) as [df1|] eqn:E1;
    [|discriminate].
  apply set_column_inv in E1 as [Hlen ->]. cbn [obind].
  destruct (set_column "p_value" _ _) as [df2|] eqn:E2; [|discriminate].
  apply set_column_inv in E2 as [_ ->]. cbn [obind].
  destruct (set_column "Z_score" _ _) as [df3|] eqn:E3; [|discriminate].
  apply set_column_inv in E3 as [_ ->]. cbn [obind].
  rewrite LISA_Clust_returns. cbn [obind].
  destruct (set_column "LISA_Clust" _ _) as [df4|] eqn:E4; [|discriminate].
  apply set_column_inv in E4 as [_ ->]. cbn [obind].
  unfold select, result_names, select_columns, set_series. cbn [data index_len].
  assert (field ≠ "LocMoranI" ∧ field ≠ "p_value" ∧ field ≠ "Z_score"
          ∧ field ≠ "LISA_Clust") as (N1 & N2 & N3 & N4).
  { unfold reserved_names in Hres. rewrite !not_elem_of_cons in Hres. tauto. }
  rewrite !(lookup_insert_ne _ _ field) by congruence.
  destruct (data df !! field) as [c|] eqn:Ec; [|discriminate].
  rewrite (lookup_insert_ne _ "LISA_Clust" "LocMoranI") by discriminate.
  rewrite (lookup_insert_ne _ "Z_score" "LocMoranI") by discriminate.
  rewrite (lookup_insert_ne _ "p_value" "LocMoranI") by discriminate.
  rewrite (lookup_insert_eq _ "LocMoranI").
  rewrite (lookup_insert_ne _ "LISA_Clust" "p_value") by discriminate.
  rewrite (lookup_insert_ne _ "Z_score" "p_value") by discriminate.
  rewrite (lookup_insert_eq _ "p_value").
  rewrite (lookup_insert_ne _ "LISA_Clust" "Z_score") by discriminate.
  rewrite (lookup_insert_eq _ "Z_score").
  rewrite (lookup_insert_eq _ "LISA_Clust").
  rewrite !(lookup_insert_ne _ _ "geometry") by discriminate.
  destruct (data df !! "geometry") as [geom|] eqn:Eg; [|discriminate].
  intros [= <-].
  exists c, geom, (map (fun s => code_to_str labels (code_of s)) m).
  repeat split; try reflexivity.
  rewrite <- Hlen. simpl. unfold Is. rewrite length_map. reflexivity.
Qed.

Lemma length_handle_missing (xs : list float) :
  length (handle_missing xs) = length xs.
Proof.
  unfold handle_missing, fillna. destruct (mean xs); [apply length_map | reflexivity].
Qed.

Lemma lisa_not_numeric (L : Library) (field : string) (df : DataFrame) (c : column)
    (weights : W L) (wd : World (RandomState L)) :
  data df !! field = Some c → (∀ xs, c ≠ FloatCol xs) →
  ∃ e, lisa L field df weights wd = (Raised e, wd).
Proof.
  intros Hc Hn. unfold lisa, bind, lift, fill_field, obind, numeric_column.
  rewrite Hc. destruct c as [xs| |]; [destruct (Hn xs); reflexivity| |];
    eexists; reflexivity.
Qed.

(** The result of a successful call when the field does not carry the name
    of a result column: one entry per row of the layer in every column, in
    the layer's order; the field after imputation, the three statistics as
    [Moran_Local] returned them, the labels, and the geometry column as it
    was read. *)
Theorem result_rows_match_input (L : Library) (input field wt : string)
    (df : DataFrame) (sel : Selection) (wd wd' : World (RandomState L)) :
  read_file L input = Returned df → wf_frame df →
  field ∉ reserved_names → field ≠ "geometry" →
  calc_local_morans L input field wt wd = (Returned (Some sel), wd') →
  ∃ xs geom weights m labs,
    data df !! field = Some (FloatCol xs)
    ∧ data df !! "geometry" = Some geom
    ∧ Moran_Local L (handle_missing xs) weights (rng wd) = (Returned m, rng wd')
    ∧ LISA_Clust m = Returned labs
    ∧ sel_len sel = index_len df
    ∧ sel_columns sel
      = [(field, FloatCol (handle_missing xs)); ("LocMoranI", FloatCol (Is m));
         ("p_value", FloatCol (p_sim m)); ("Z_score", FloatCol (z_sim m));
         ("LISA_Clust", StrCol labs); ("geometry", geom)]
    ∧ Forall (fun nc => column_length nc.2 = index_len df) (sel_columns sel).
Proof.
  intros Hread Hwf Hres Hgeo Hcalc.
  destruct (has_column field df) eqn:Hcol;
    [|rewrite (calc_field_missing L _ _ _ _ _ Hread Hcol) in Hcalc; discriminate].
  destruct (select_weights L wt df) as [build|] eqn:Hsel;
    [|rewrite (calc_invalid_weight L _ _ _ _ _ Hread Hcol Hsel) in Hcalc;
      discriminate].
  rewrite (calc_valid L _ _ _ _ _ _ Hread Hcol Hsel) in Hcalc.
  destruct build as [weights|e]; [|discriminate].
  destruct (lisa L field df weights wd) as [[sel'|e] wd''] eqn:Hlisa;
    [|discriminate].
  injection Hcalc as -> ->.
  unfold has_column in Hcol. apply bool_decide_eq_true in Hcol as [c Hc].
  assert (∃ xs, c = FloatCol xs) as [xs ->].
  { destruct c as [ys| |]; [eauto| |];
      (destruct (lisa_not_numeric L field df _ weights wd Hc) as [e He];
        [intros zs; discriminate | rewrite He in Hlisa; discriminate]). }
  rewrite (lisa_unfold L field df xs weights wd Hc) in Hlisa.
  destruct (Moran_Local L (handle_missing xs) weights (rng wd)) as [[m|e] g] eqn:HM;
    [|discriminate].
  injection Hlisa as Hasm <-.
  apply assemble_success in Hasm as (c & geom & labs & Hc' & Hg & Hl & Hn & ->);
    [|exact Hres].
  unfold set_series in Hc', Hg, Hn. cbn [data index_len] in Hc', Hg, Hn.
  rewrite lookup_insert_eq in Hc'. injection Hc' as <-.
  rewrite lookup_insert_ne in Hg by congruence.
  exists xs, geom, weights, m, labs.
  split; [exact Hc|]. split; [exact Hg|]. split; [exact HM|].
  split; [exact Hl|]. split; [reflexivity|]. split; [reflexivity|].
  cbn [sel_columns index_len set_series].
  repeat constructor; cbn [snd column_length].
  - rewrite length_handle_missing. apply (Hwf _ _ Hc).
  - unfold Is. rewrite length_map. exact Hn.
  - unfold p_sim. rewrite length_map. exact Hn.
  - unfold z_sim. rewrite length_map. exact Hn.
  - rewrite (LISA_Clust_length m labs Hl). exact Hn.
  - apply (Hwf _ _ Hg).
Qed.


Lemma wf_grid : wf_frame Demo.grid.
Proof.
  change (map_Forall (fun (_ : string) c => column_length c = index_len Demo.grid)
            (data Demo.grid)).
  apply (bool_decide_unpack _). vm_compute. exact I.
Qed.

Lemma result_rows_match_input_witness :
  ∃ sel wd',
    calc_local_morans Demo.lib "grid.shp" "value" "Queen" (Demo.start Demo.gen_a)
    = (Returned (Some sel), wd')
    ∧ sel_len sel = 4%nat
    ∧ Forall (fun nc => column_length nc.2 = 4%nat) (sel_columns sel)
    ∧ sel_lookup "geometry" (sel_columns sel) = Some (GeomCol Demo.squares).
Proof.
  assert (E : ∃ sel wd',
             calc_local_morans Demo.lib "grid.shp" "value" "Queen"
               (Demo.start Demo.gen_a) = (Returned (Some sel), wd'))
    by (eexists _, _; vm_compute; reflexivity).
  destruct E as (sel & wd' & E).
  exists sel, wd'. split; [exact E|].
  destruct (result_rows_match_input Demo.lib "grid.shp" "value" "Queen"
              Demo.grid sel (Demo.start Demo.gen_a) wd')
    as (xs & geom & weights & m & labs & Hc & Hg & _ & _ & Hlen & Hcols & Hall).
  - reflexivity.
  - exact wf_grid.
  - apply (bool_decide_unpack _). vm_compute. exact I.
  - discriminate.
  - exact E.
  - split; [exact Hlen|]. split; [exact Hall|].
    rewrite Hcols. vm_compute in Hg. injection Hg as <-. reflexivity.
Defined.

(** C4 on the code, at a field that carries the name of a result column.
    The layer has an attribute called [p_value]; asked for it, the call
    succeeds, but line 50 overwrites the attribute with the p-values and
    line 73 selects that column twice: no column of the result holds the
    attribute after imputation, [7, 5, 3, 5]. *)
Theorem field_named_as_result_column_is_overwritten :
  data Demo.grid !! "p_value" = Some (FloatCol [Some 7; None; Some 3; Some 5])
  ∧ handle_missing [Some 7; None; Some 3; Some 5]
    = [Some 7; Some (15 # 3); Some 3; Some 5]
  ∧ ∃ sel wd',
      calc_local_morans Demo.lib "grid.shp" "p_value" "rook" (Demo.start Demo.gen_a)
      = (Returned (Some sel), wd')
      ∧ map fst (sel_columns sel)
        = ["p_value"; "LocMoranI"; "p_value"; "Z_score"; "LISA_Clust"; "geometry"]
      ∧ sel_columns sel !! 0%nat
        = Some ("p_value",
                FloatCol [Some (667 # 1000); Some 1; Some (334 # 1000); Some 1])
      ∧ sel_columns sel !! 2%nat
        = Some ("p_value",
                FloatCol [Some (667 # 1000); Some 1; Some (334 # 1000); Some 1])
      ∧ FloatCol (handle_missing [Some 7; None; Some 3; Some 5])
        ∉ map snd (sel_columns sel).
Proof.
  split; [reflexivity|]. split; [reflexivity|].
  eexists _, _. split; [vm_compute; reflexivity|].
  cbv [sel_columns].
  split; [reflexivity|]. split; [reflexivity|]. split; [reflexivity|].
  change (handle_missing [Some 7; None; Some 3; Some 5])
    with [Some 7; Some (15 # 3); Some 3; Some 5].
  cbv [map snd]. intros H.
  repeat (apply elem_of_cons in H as [H|H]; [discriminate H|]).
  apply elem_of_nil in H. exact H.
Qed.

(** ** The engine of the specification *)

Module SpecEngineFacts.
Import SpecEngine.

Lemma count_if_le (f : Q → bool) (xs : list Q) : (count_if f xs ≤ length xs)%nat.
Proof. unfold count_if. apply length_filter. Qed.


Lemma count_extreme_le (I_i : Q) (refs : list Q) :
  (count_extreme I_i refs ≤ length refs)%nat.
Proof. unfold count_extreme. destruct (Qle_bool 0 I_i); apply count_if_le. Qed.






(** *** Zero variance *)

Lemma Qsum_all_equal (c : Q) (xs : list Q) :
  Forall (fun a => a == c) xs →
  Qsum xs == inject_Z (Z.of_nat (length xs)) * c.
Proof.
  induction 1 as [|a xs Ha _ IH].
  - simpl. ring.
  - rewrite Qsum_cons, IH, Ha.
    cbn [length]. rewrite Nat2Z.inj_succ. unfold Z.succ.
    rewrite inject_Z_plus. ring.
Qed.

Lemma Qmean_all_equal (c : Q) (xs : list Q) :
  xs ≠ [] → Forall (fun a => a == c) xs → Qmean xs == c.
Proof.
  intros Hne Hall. unfold Qmean. rewrite (Qsum_all_equal c xs Hall).
  assert (Hn : ¬ inject_Z (Z.of_nat (length xs)) == 0).
  { destruct xs as [|a xs]; [congruence|].
    change 0 with (inject_Z 0). rewrite inject_Z_injective.
    cbn [length]. lia. }
  field. exact Hn.
Qed.

Lemma Qsum_squares_zero (zs : list Q) :
  Forall (fun z => z == 0) zs → Qsum (map (fun z_k => z_k * z_k) zs) == 0.
Proof.
  induction 1 as [|z zs Hz _ IH]; [reflexivity|].
  cbn [map]. rewrite Qsum_cons, IH, Hz. ring.
Qed.

(** A constant attribute has zero variance. *)
Lemma constant_attribute_zero_variance (c : Q) (x : list Q) :
  Forall (fun a => a == c) x → m2 (standardize x) == 0.
Proof.
  intros Hall. unfold m2.
  assert (Hz : Forall (fun z => z == 0) (standardize x)).
  { destruct x as [|a x]; [constructor|].
    assert (Hmu : Qmean (a :: x) == c)
      by (apply Qmean_all_equal; [discriminate | exact Hall]).
    unfold standardize. cbv zeta. apply Forall_map.
    eapply Forall_impl; [exact Hall|].
    intros b Hb. cbv beta. rewrite Hb, Hmu. ring. }
  rewrite (Qsum_squares_zero _ Hz). ring.
Qed.

(** C7 against the engine of the specification.  When the standardized
    attribute has [m2 = 0] the engine fails with [DegenerateInputError],
    both in the statistic of section 4.4 and in the inference built on
    it, whatever the weights, the permutation count and the random
    source; otherwise the statistic is produced. *)
Theorem zero_variance_is_degenerate (x : list Q) (w : Weights) :
  m2 (standardize x) == 0 →
  local_moran (standardize x) w = inl DegenerateInputError
  ∧ ∀ (sqrtQ : Q → Q) (q_tie : Z) (P : nat) (σ : RandomSource),
      inference sqrtQ q_tie P x w σ = (inl DegenerateInputError, σ).
Proof.
  intros H. apply Qeq_eq_bool in H. split.
  - unfold local_moran. cbv zeta. rewrite H. reflexivity.
  - intros sqrtQ q_tie P σ. unfold inference, inference_by. cbv zeta.
    rewrite H.
    reflexivity.
Qed.

Lemma nonzero_variance_gives_statistic (x : list Q) (w : Weights) :
  ¬ m2 (standardize x) == 0 →
  ∃ Is_, local_moran (standardize x) w = inr Is_.
Proof.
  intros H. unfold local_moran. cbv zeta.
  destruct (Qeq_bool (m2 (standardize x)) 0) eqn:E.
  - apply Qeq_bool_eq in E. contradiction.
  - eexists. reflexivity.
Qed.

Lemma zero_variance_is_degenerate_witness :
  m2 (standardize Demo.constant_attribute) == 0
  ∧ local_moran (standardize Demo.constant_attribute) Demo.queen_grid
    = inl DegenerateInputError.
Proof.
  assert (H : m2 (standardize Demo.constant_attribute) == 0)
    by (vm_compute; reflexivity).
  split; [exact H|].
  apply (zero_variance_is_degenerate Demo.constant_attribute Demo.queen_grid H).
Defined.

(** *** Sources seeded alike *)







End SpecEngineFacts.

(** ** Runs seeded alike *)




(** * Further properties of the code *)

(** ** The classifier as a whole *)

(** The label of one unit, by cases on its significance and quadrant. *)
Lemma unit_label_cases (s : LocalStat) :
  (float_lt (p_sim_i s) alpha = true
   ∧ ((q_i s = 1%Z ∧ code_to_str labels (code_of s) = "Hotspot (High-High)")
      ∨ (q_i s = 3%Z ∧ code_to_str labels (code_of s) = "Coldspot(Low-Low)")
      ∨ (q_i s = 2%Z ∧ code_to_str labels (code_of s) = "outlier(Low-High)")
      ∨ (q_i s = 4%Z ∧ code_to_str labels (code_of s) = "outlier(High-Low)")))
  ∨ ((float_lt (p_sim_i s) alpha = false
      ∨ (q_i s ≠ 1 ∧ q_i s ≠ 2 ∧ q_i s ≠ 3 ∧ q_i s ≠ 4)%Z)
     ∧ code_to_str labels (code_of s) = "Non-sig").
Proof.
  unfold code_of. remember (q_i s) as qq eqn:Hq. clear Hq.
  destruct (float_lt (p_sim_i s) alpha); simpl b2z.
  - destruct (Z.eqb_spec qq 1) as [->|N1]; [left; split; [reflexivity|]; auto|].
    destruct (Z.eqb_spec qq 3) as [->|N3];
      [left; split; [reflexivity|]; right; left; auto|].
    destruct (Z.eqb_spec qq 2) as [->|N2];
      [left; split; [reflexivity|]; right; right; left; auto|].
    destruct (Z.eqb_spec qq 4) as [->|N4];
      [left; split; [reflexivity|]; right; right; right; auto|].
    right. split; [right; auto | reflexivity].
  - right. split; [left; reflexivity|].
    rewrite !Z.mul_0_r. reflexivity.
Qed.

Lemma unit_label_in_labels (s : LocalStat) :
  code_to_str labels (code_of s) = "Non-sig"
  ∨ code_to_str labels (code_of s) = "Hotspot (High-High)"
  ∨ code_to_str labels (code_of s) = "Coldspot(Low-Low)"
  ∨ code_to_str labels (code_of s) = "outlier(Low-High)"
  ∨ code_to_str labels (code_of s) = "outlier(High-Low)".
Proof.
  destruct (unit_label_cases s)
    as [(_ & [(_ & H)|[(_ & H)|[(_ & H)|(_ & H)]]])|(_ & H)]; rewrite H; auto.
Qed.

(** Lines 57-70 never raise and label every unit: the codes always lie in
    the range of the five labels, the labels come one per unit and from
    the list of line 64, and a unit is labelled something other than
    [Non-sig] exactly when its p-value is a number below 0.05 and its
    quadrant is one of 1, 2, 3, 4 (a NaN p-value or any other quadrant
    code gives [Non-sig]). *)
Theorem classification_is_total (m : MoranLocal) :
  ∃ labs,
    LISA_Clust m = Returned labs
    ∧ length labs = length m
    ∧ Forall (fun lab => lab ∈ labels) labs
    ∧ ∀ i s lab, m !! i = Some s → labs !! i = Some lab →
        (lab ≠ "Non-sig"
         ↔ (∃ p, p_sim_i s = Some p ∧ p < 5 # 100)
           ∧ (q_i s = 1 ∨ q_i s = 2 ∨ q_i s = 3 ∨ q_i s = 4)%Z).
Proof.
  exists (map (fun s => code_to_str labels (code_of s)) m).
  split; [apply LISA_Clust_returns|].
  split; [apply length_map|].
  split.
  - apply Forall_map, Forall_forall. intros s _. cbv beta.
    unfold labels at 2.
    destruct (unit_label_in_labels s) as [H|[H|[H|[H|H]]]]; rewrite H.
    + apply list_elem_of_here.
    + do 1 apply list_elem_of_further. apply list_elem_of_here.
    + do 2 apply list_elem_of_further. apply list_elem_of_here.
    + do 3 apply list_elem_of_further. apply list_elem_of_here.
    + do 4 apply list_elem_of_further. apply list_elem_of_here.
  - intros i s lab Hi Hl.
    rewrite list_lookup_fmap, Hi in Hl. injection Hl as <-.
    pose proof (float_lt_iff (p_sim_i s) alpha) as Hlt.
    destruct (unit_label_cases s) as [(Hp & Hq)|([Hp|Hq] & Hlab)].
    + split.
      * intros _. split; [apply Hlt; exact Hp|].
        destruct Hq as [(Hq & _)|[(Hq & _)|[(Hq & _)|(Hq & _)]]]; auto.
      * intros _.
        destruct Hq as [(_ & H)|[(_ & H)|[(_ & H)|(_ & H)]]]; rewrite H;
          discriminate.
    + split; [intros H; contradiction|].
      intros (Hp' & _). apply Hlt in Hp'. congruence.
    + split; [intros H; contradiction|].
      intros (_ & Hq'). lia.
Qed.

(** ** The colours of the map *)

Lemma color_map_lookup (clust : list string) (i : nat) (lab : string) :
  clust !! i = Some lab →
  map_colors clust !! i = Some (dict_get lab custom_colors)
  ∧ color_map clust !! i
    = Some (default "lightgrey" (dict_get lab custom_colors)).
Proof.
  intros H. unfold color_map, map_colors.
  rewrite !list_lookup_fmap, H. split; reflexivity.
Qed.

(** [plot_lisa] and the classifier agree on the categories.  The legend
    lists the five labels of line 64 in the order of their codes; every
    label the classifier gives has a colour of its own in the table of
    lines 87-93, so that line 99's default is never needed on a result of
    [calc_local_morans]; and two units are drawn in the same colour exactly
    when they carry the same label. *)
Theorem plot_colours_match_labels (m : MoranLocal) (labs : list string) :
  LISA_Clust m = Returned labs →
  map line_label legend_items = labels
  ∧ map line_color legend_items = map snd custom_colors
  ∧ length (color_map labs) = length m
  ∧ Forall (fun c => c ≠ None) (map_colors labs)
  ∧ ∀ i j li lj ci cj,
      labs !! i = Some li → labs !! j = Some lj →
      color_map labs !! i = Some ci → color_map labs !! j = Some cj →
      (ci = cj ↔ li = lj).
Proof.
  rewrite LISA_Clust_returns. intros [= <-].
  split; [reflexivity|]. split; [reflexivity|].
  split; [unfold color_map, map_colors; rewrite !length_map; reflexivity|].
  split.
  - unfold map_colors. rewrite map_map. apply Forall_map, Forall_forall.
    intros s _. cbv beta.
    destruct (unit_label_in_labels s) as [H|[H|[H|[H|H]]]]; rewrite H;
      discriminate.
  - intros i j li lj ci cj Hi Hj Hci Hcj.
    destruct (color_map_lookup _ _ _ Hi) as [_ Hci'].
    destruct (color_map_lookup _ _ _ Hj) as [_ Hcj'].
    rewrite Hci' in Hci. rewrite Hcj' in Hcj.
    injection Hci as <-. injection Hcj as <-.
    rewrite list_lookup_fmap in Hi, Hj.
    destruct (m !! i) as [si|]; [|discriminate].
    destruct (m !! j) as [sj|]; [|discriminate].
    injection Hi as <-. injection Hj as <-.
    destruct (unit_label_in_labels si) as [H|[H|[H|[H|H]]]]; rewrite H;
      destruct (unit_label_in_labels sj) as [H'|[H'|[H'|[H'|H']]]]; rewrite H';
      split; intros E; try reflexivity; discriminate E.
Qed.

Lemma plot_colours_match_labels_witness :
  LISA_Clust [Demo.sample_stat] = Returned ["Coldspot(Low-Low)"]
  ∧ color_map ["Coldspot(Low-Low)"] = ["blue"]
  ∧ Forall (fun c : option string => c ≠ None) (map_colors ["Coldspot(Low-Low)"]).
Proof.
  assert (H : LISA_Clust [Demo.sample_stat] = Returned ["Coldspot(Low-Low)"])
    by reflexivity.
  split; [exact H|]. split; [reflexivity|].
  exact (proj1 (proj2 (proj2 (proj2
           (plot_colours_match_labels [Demo.sample_stat] _ H))))).
Defined.

(** A label outside the table (for one, the text [nan] of a missing
    category) is drawn in [lightgrey], the colour of [Non-sig]; the colours
    come one per unit. *)
Theorem unknown_label_is_drawn_as_non_sig (clust : list string) (i : nat)
    (lab : string) :
  clust !! i = Some lab →
  lab ∉ map fst custom_colors →
  map_colors clust !! i = Some None
  ∧ color_map clust !! i = Some "lightgrey"
  ∧ dict_get "Non-sig" custom_colors = Some "lightgrey"
  ∧ length (color_map clust) = length clust.
Proof.
  intros Hi Hno.
  destruct (color_map_lookup _ _ _ Hi) as [Hm Hc].
  assert (Hget : dict_get lab custom_colors = None).
  { clear -Hno. induction custom_colors as [|[k v] d IH]; [reflexivity|].
    simpl. destruct (String.eqb_spec k lab) as [->|Hne].
    - destruct Hno. simpl. apply list_elem_of_here.
    - apply IH. intros Hin. apply Hno. simpl.
      apply list_elem_of_further. exact Hin. }
  rewrite Hm, Hc, Hget.
  split; [reflexivity|]. split; [reflexivity|]. split; [reflexivity|].
  unfold color_map, map_colors. rewrite !length_map. reflexivity.
Qed.

Lemma unknown_label_is_drawn_as_non_sig_witness :
  ["Non-sig"; "nan"] !! 1%nat = Some "nan"
  ∧ ("nan" ∉ map fst custom_colors)
  ∧ color_map ["Non-sig"; "nan"] !! 1%nat = Some "lightgrey".
Proof.
  assert (H1 : ["Non-sig"; "nan"] !! 1%nat = Some "nan") by reflexivity.
  assert (H2 : "nan" ∉ map fst custom_colors)
    by (apply (bool_decide_unpack _); vm_compute; exact I).
  split; [exact H1|]. split; [exact H2|].
  exact (proj1 (proj2 (unknown_label_is_drawn_as_non_sig _ _ _ H1 H2))).
Defined.

(** ** Imputation as an operation on columns *)

Lemma fillna_no_missing (xs : list float) (m : Q) :
  Forall (fun x => x ≠ None) (fillna xs (Some m)).
Proof.
  unfold fillna. apply Forall_map, Forall_forall.
  intros [a|] _; discriminate.
Qed.

Lemma fillna_all_present (xs : list float) (v : float) :
  Forall (fun x => x ≠ None) xs → fillna xs v = xs.
Proof.
  intros Hall. destruct v as [m|]; [|reflexivity].
  unfold fillna. induction Hall as [|[a|] xs Hx _ IH]; simpl.
  - reflexivity.
  - f_equal. exact IH.
  - destruct Hx. reflexivity.
Qed.

(** Line 43 as an operation on a column.  It keeps the length and every
    present entry; applying it twice is applying it once; when the mean
    of the column is a number it leaves no missing value; when the mean is
    NaN it changes nothing. *)
Theorem imputation_properties (xs : list float) :
  length (handle_missing xs) = length xs
  ∧ handle_missing (handle_missing xs) = handle_missing xs
  ∧ (∀ i v, xs !! i = Some (Some v) → handle_missing xs !! i = Some (Some v))
  ∧ (∀ a, mean xs = Some a → Forall (fun x => x ≠ None) (handle_missing xs))
  ∧ (mean xs = None → handle_missing xs = xs).
Proof.
  split; [apply length_handle_missing|].
  assert (Hkeep : ∀ i v, xs !! i = Some (Some v) →
                         handle_missing xs !! i = Some (Some v)).
  { intros i v Hi. unfold handle_missing.
    destruct (mean xs) as [m|]; simpl; [|exact Hi].
    rewrite list_lookup_fmap, Hi. reflexivity. }
  destruct (mean xs) as [a|] eqn:Ha.
  - assert (Hfull : Forall (fun x => x ≠ None) (handle_missing xs)).
    { unfold handle_missing. rewrite Ha. apply fillna_no_missing. }
    split.
    { unfold handle_missing at 1. apply fillna_all_present. exact Hfull. }
    split; [exact Hkeep|].
    split; [intros _ _; exact Hfull|].
    discriminate.
  - assert (Hid : handle_missing xs = xs).
    { unfold handle_missing. rewrite Ha. reflexivity. }
    split; [rewrite !Hid; reflexivity|].
    split; [exact Hkeep|].
    split; [discriminate|].
    intros _. exact Hid.
Qed.

Lemma imputation_properties_witness :
  (∃ a, mean Demo.scenario = Some a)
  ∧ Forall (fun x : float => x ≠ None) (handle_missing Demo.scenario)
  ∧ handle_missing (handle_missing Demo.scenario) = handle_missing Demo.scenario.
Proof.
  assert (H : ∃ a, mean Demo.scenario = Some a) by (eexists; reflexivity).
  split; [exact H|].
  destruct H as [a Ha].
  destruct (imputation_properties Demo.scenario) as (_ & H0 & _ & H1 & _).
  split; [exact (H1 a Ha) | exact H0].
Defined.

(** ** When [calc_local_morans] returns [None] *)



(** ** The exit status *)

Lemma save_and_plot_returns (L : Library) (results : Selection) (field : string)
    (wd : World (RandomState L)) :
  ∃ wd', save_and_plot L results field wd = (Returned tt, wd').
Proof. eexists. reflexivity. Qed.

(** The process ends with status 0 or 1, and with 1 exactly when the
    argument list does not have four entries or the call of
    [calc_local_morans] raised.  With a wrong number of arguments the
    script prints the error object and does nothing else: no layer is
    read, the random generator is not touched. *)
Theorem exit_status_characterised (L : Library) (argv : list string)
    (wd : World (RandomState L)) :
  ((main L argv wd).1 = 0 ∨ (main L argv wd).1 = 1)%Z
  ∧ ((main L argv wd).1 = 1%Z
     ↔ length argv ≠ 4%nat
       ∨ ∃ prog input field wt e,
           argv = [prog; input; field; wt]
           ∧ (calc_local_morans L input field wt wd).1 = Raised e)
  ∧ (length argv ≠ 4%nat →
     main L argv wd
     = (1%Z, emit (Print (json_error "Incorrect number of arguments provided.")) wd)).
Proof.
  destruct argv as [|prog [|input [|field [|wt [|extra rest]]]]];
    try (split; [right; reflexivity|];
         split; [split; [intros _; left; simpl; lia | reflexivity]
                | intros _; reflexivity]).
  unfold main.
  destruct (calc_local_morans L input field wt wd) as [[[sel|]|e] wd'] eqn:Hcalc.
  - destruct (save_and_plot_returns L sel field wd') as [wd'' Hs]. rewrite Hs.
    split; [left; reflexivity|]. split; [|intros H; simpl in H; lia].
    split; [discriminate|].
    intros [H|(p & i & f & w & e & Heq & Hr)]; [simpl in H; lia|].
    injection Heq as <- <- <- <-. rewrite Hcalc in Hr. discriminate.
  - split; [left; reflexivity|]. split; [|intros H; simpl in H; lia].
    split; [discriminate|].
    intros [H|(p & i & f & w & e & Heq & Hr)]; [simpl in H; lia|].
    injection Heq as <- <- <- <-. rewrite Hcalc in Hr. discriminate.
  - split; [right; reflexivity|]. split; [|intros H; simpl in H; lia].
    split; [|reflexivity].
    intros _. right. exists prog, input, field, wt, e.
    rewrite Hcalc. auto.
Qed.

(** ** Exceptions out of the libraries *)

(** Only the read of the layer is guarded.  Once the layer is read and
    has the field, an exception raised by the weights constructor or by
    [Moran_Local] leaves [calc_local_morans] unchanged and unreported
    (nothing is printed); a field that exists but is not numeric (the
    geometry column passes the check of line 29) raises before
    [Moran_Local] is reached, the random generator untouched. *)
Theorem library_exceptions_propagate (L : Library) (input field wt : string)
    (df : DataFrame) (wd : World (RandomState L)) :
  read_file L input = Returned df → has_column field df = true →
  (∀ e, select_weights L wt df = Some (Raised e) →
     calc_local_morans L input field wt wd = (Raised e, wd))
  ∧ (∀ weights xs e g,
       select_weights L wt df = Some (Returned weights) →
       data df !! field = Some (FloatCol xs) →
       Moran_Local L (handle_missing xs) weights (rng wd) = (Raised e, g) →
       calc_local_morans L input field wt wd = (Raised e, MkWorld g (trace wd)))
  ∧ (∀ weights c,
       select_weights L wt df = Some (Returned weights) →
       data df !! field = Some c → (∀ xs, c ≠ FloatCol xs) →
       ∃ e, calc_local_morans L input field wt wd = (Raised e, wd)).
Proof.
  intros Hread Hcol. split; [|split].
  - intros e Hsel. rewrite (calc_valid L _ _ _ _ _ wd Hread Hcol Hsel).
    reflexivity.
  - intros weights xs e g Hsel Hc HM.
    rewrite (calc_valid L _ _ _ _ _ wd Hread Hcol Hsel).
    rewrite (lisa_unfold L field df xs weights wd Hc), HM. reflexivity.
  - intros weights c Hsel Hc Hn.
    rewrite (calc_valid L _ _ _ _ _ wd Hread Hcol Hsel).
    destruct (lisa_not_numeric L field df c weights wd Hc Hn) as [e He].
    rewrite He. eauto.
Qed.

Lemma library_exceptions_propagate_witness :
  read_file Demo.lib "grid.shp" = Returned Demo.grid
  ∧ has_column "geometry" Demo.grid = true
  ∧ ∃ e, calc_local_morans Demo.lib "grid.shp" "geometry" "queen"
           (Demo.start Demo.gen_a) = (Raised e, Demo.start Demo.gen_a).
Proof.
  assert (H1 : read_file Demo.lib "grid.shp" = Returned Demo.grid) by reflexivity.
  assert (H2 : has_column "geometry" Demo.grid = true) by reflexivity.
  split; [exact H1|]. split; [exact H2|].
  destruct (library_exceptions_propagate Demo.lib "grid.shp" "geometry" "queen"
              Demo.grid (Demo.start Demo.gen_a) H1 H2) as (_ & _ & H).
  apply (H Demo.queen_grid (GeomCol Demo.squares)).
  - reflexivity.
  - reflexivity.
  - intros xs. discriminate.
Defined.

(** ** What a successful run leaves behind *)

Lemma select_columns_names (names : list string) (df : DataFrame)
    (cs : list (string * column)) :
  select_columns names df = Returned cs → map fst cs = names.
Proof.
  revert cs. induction names as [|n ns IH]; intros cs; simpl.
  - intros [= <-]. reflexivity.
  - destruct (data df !! n) as [c|]; [|discriminate].
    destruct (select_columns ns df) as [cs'|e]; [|discriminate].
    intros [= <-]. simpl. f_equal. apply IH. reflexivity.
Qed.

Lemma assemble_names (field : string) (df : DataFrame) (m : MoranLocal)
    (sel : Selection) :
  assemble field df m = Returned sel →
  map fst (sel_columns sel) = result_names field.
Proof.
  unfold assemble.
  destruct (set_column "LocMoranI" _ df) as [df1|]; [|discriminate]. cbn [obind].
  destruct (set_column "p_value" _ df1) as [df2|]; [|discriminate]. cbn [obind].
  destruct (set_column "Z_score" _ df2) as [df3|]; [|discriminate]. cbn [obind].
  destruct (LISA_Clust m) as [clust|]; [|discriminate]. cbn [obind].
  destruct (set_column "LISA_Clust" _ df3) as [df4|]; [|discriminate]. cbn [obind].
  unfold select.
  destruct (select_columns (result_names field) df4) as [cs|] eqn:E; [|discriminate].
  intros [= <-]. cbn [sel_columns]. exact (select_columns_names _ _ _ E).
Qed.

Lemma calc_success_names (L : Library) (input field wt : string) (sel : Selection)
    (wd : World (RandomState L)) :
  (calc_local_morans L input field wt wd).1 = Returned (Some sel) →
  map fst (sel_columns sel) = result_names field.
Proof.
  unfold calc_local_morans.
  destruct (read_file L input) as [df|e]; [|discriminate].
  destruct (has_column field df); cbn [negb]; [|discriminate].
  destruct (select_weights L wt df) as [[weights|e]|]; [|discriminate|discriminate].
  unfold bind, lift, ret. cbv beta iota.
  destruct (lisa L field df weights wd) as [[sel'|e] wd'] eqn:Hl; [|discriminate].
  intros [= ->]. revert Hl. unfold lisa, bind, lift.
  destruct (fill_field field df) as [df1|e]; [|discriminate].
  destruct (numeric_column field df1) as [y|e]; [|discriminate].
  destruct (call_Moran_Local L y weights wd) as [[m|e] wd1]; [|discriminate].
  destruct (assemble field df1 m) as [s|e] eqn:Ha; [|discriminate].
  intros [= -> _]. exact (assemble_names _ _ _ _ Ha).
Qed.

Lemma calc_success_trace (L : Library) (input field wt : string) (sel : Selection)
    (wd : World (RandomState L)) :
  (calc_local_morans L input field wt wd).1 = Returned (Some sel) →
  trace (calc_local_morans L input field wt wd).2 = trace wd.
Proof.
  unfold calc_local_morans.
  destruct (read_file L input) as [df|e]; [|discriminate].
  destruct (has_column field df); cbn [negb]; [|discriminate].
  destruct (select_weights L wt df) as [[weights|e]|]; [|discriminate|discriminate].
  unfold bind, lift, ret. cbv beta iota.
  pose proof (lisa_trace L field df weights wd) as Ht.
  destruct (lisa L field df weights wd) as [[sel'|e] wd']; [|discriminate].
  intros _. exact Ht.
Qed.

(** A run whose call returned a result for a field that does not carry
    the name of a result column: the columns of the result are named, in
    order, by the field and the five fixed names, no name twice.  The
    writers and the renderer being taken to succeed, what the script
    itself then does is, in this order: write the result as GeoJSON, say
    so, write the result without its geometry column as CSV, say so, and
    hand the result to [plot_lisa].  The CSV has the same number of rows
    and exactly the first five columns of the result. *)
Theorem successful_run_trace (L : Library) (prog input field wt : string)
    (sel : Selection) (wd : World (RandomState L)) :
  (calc_local_morans L input field wt wd).1 = Returned (Some sel) →
  field ∉ reserved_names → field ≠ "geometry" →
  trace (main L [prog; input; field; wt] wd).2
  = trace wd
    ++ [ToFile "local_morans_results.geojson" "GeoJSON" sel;
        Print "Results saved as GeoJSON to local_morans_results.geojson";
        ToCsv "local_morans_results.csv" (drop_column "geometry" sel);
        Print "Results saved as CSV to local_morans_results.csv";
        PlotLisa sel field]
  ∧ map fst (sel_columns sel)
    = [field; "LocMoranI"; "p_value"; "Z_score"; "LISA_Clust"; "geometry"]
  ∧ NoDup (map fst (sel_columns sel))
  ∧ sel_len (drop_column "geometry" sel) = sel_len sel
  ∧ sel_columns (drop_column "geometry" sel) = take 5 (sel_columns sel).
Proof.
  intros Hs Hres Hgeo.
  pose proof (calc_success_names L input field wt sel wd Hs) as Hnames.
  split; [|split; [exact Hnames|split; [|split; [reflexivity|]]]].
  - assert (Ht : trace (calc_local_morans L input field wt wd).2 = trace wd).
    { exact (calc_success_trace L input field wt sel wd Hs). }
    unfold main.
    destruct (calc_local_morans L input field wt wd) as [[[r|]|e] wd'];
      try discriminate.
    simpl in Hs, Ht. injection Hs as ->.
    unfold save_and_plot, bind, print, emit. cbn [rng trace fst snd].
    rewrite Ht, <- !app_assoc. reflexivity.
  - rewrite Hnames. unfold result_names. apply NoDup_cons. split.
    + intros Hin. apply elem_of_app with (l1 := reserved_names)
        (l2 := ["geometry"]) in Hin.
      destruct Hin as [Hin|Hin]; [exact (Hres Hin)|].
      apply list_elem_of_singleton in Hin. exact (Hgeo Hin).
    + apply (bool_decide_unpack _). vm_compute. exact I.
  - unfold drop_column. cbn [sel_columns].
    unfold result_names in Hnames.
    destruct (sel_columns sel) as [|[n0 c0] [|[n1 c1] [|[n2 c2] [|[n3 c3]
      [|[n4 c4] [|[n5 c5] [|x rest]]]]]]]; try discriminate.
    injection Hnames as -> -> -> -> -> ->.
    rewrite !filter_cons, filter_nil. cbn [fst take].
    repeat case_decide; try congruence; try discriminate; reflexivity.
Qed.

Lemma successful_run_trace_witness :
  ∃ sel,
    (calc_local_morans Demo.lib "grid.shp" "value" "queen"
       (Demo.start Demo.gen_a)).1 = Returned (Some sel)
    ∧ ("value" ∉ reserved_names) ∧ "value" ≠ "geometry"
    ∧ map fst (sel_columns sel)
      = ["value"; "LocMoranI"; "p_value"; "Z_score"; "LISA_Clust"; "geometry"]
    ∧ sel_columns (drop_column "geometry" sel) = take 5 (sel_columns sel)
    ∧ length (trace (main Demo.lib [Demo.script; "grid.shp"; "value"; "queen"]
                       (Demo.start Demo.gen_a)).2) = 5%nat.
Proof.
  assert (H : ∃ sel, (calc_local_morans Demo.lib "grid.shp" "value" "queen"
                        (Demo.start Demo.gen_a)).1 = Returned (Some sel))
    by (eexists; vm_compute; reflexivity).
  assert (H1 : "value" ∉ reserved_names)
    by (apply (bool_decide_unpack _); vm_compute; exact I).
  assert (H2 : "value" ≠ "geometry") by discriminate.
  destruct H as [sel H]. exists sel. split; [exact H|].
  split; [exact H1|]. split; [exact H2|].
  destruct (successful_run_trace Demo.lib Demo.script "grid.shp" "value" "queen"
              sel (Demo.start Demo.gen_a) H H1 H2) as (Ht & Hn & _ & _ & Hd).
  split; [exact Hn|]. split; [exact Hd|].
  rewrite Ht. reflexivity.
Defined.
